(** * The calibration routine of the MRC eye-tracker wrapper

    A shallow embedding of [MRCEyeTracking.calibrate] (mrc_eyetracker.py,
    lines 246-330) and the properties of its polling loops.

    The routine talks to three collaborators: the vendor library (the
    [eye_*] calls), the PsychoPy keyboard ([clearEvents], [getKeys]) and the
    PsychoPy window (stimulus [draw], [win.flip]).  Every call is recorded in
    a log, in program order, with the value it returned; the values
    themselves come from a script of answers, one per call, so that a
    statement quantified over scripts covers every device and every user.

    Numbers.  [int] arguments are [Z]; [float] arguments and the doubles read
    from the device are exact rationals [Q] (Python's [/] is true division,
    [int(...)] truncates towards zero).

    Loops.  Each [while] is a [Fixpoint] on a fuel counter; running out of
    fuel is reported as [Spin], with the log written so far.

    Line 271 of the source reads [while calibration_message] without the
    closing colon; the embedding reads it as the [while] statement whose
    body is the indented block that follows. *)

From Stdlib Require Import ZArith QArith List String Bool Lia.
Import ListNotations.

Local Open Scope Z_scope.
Local Open Scope string_scope.
Local Open Scope list_scope.

(** ** Values and calls *)

(** [list(data)] of [eye_get_calibration_point]: three doubles,
    [point[0]] the index, [point[1]] and [point[2]] the coordinates. *)
Record point : Type := mkPoint { p_index : Q; p_x : Q; p_y : Q }.

(** The two [visual.TextStim] objects built at lines 250-253. *)
Inductive text_stim : Type := repeat_Text | calibration_Text.

(** What [print] is given. *)
Inductive pyval : Type :=
| PyStr (s : string)
| PyInt (z : Z).

Inductive event : Type :=
| EyeGetStatus (v : Z)
| EyeSetDisplayParameter (width height distance : Z) (pixelsize : Q)
| EyeSetDisplayOffset (width_offset height_offset : Z)
| EyeStartStream (parameter : Z)
| EyeStartCalibrate (points : Z)
| EyeStopCalibration
| EyeStopStream
| EyeGetCalibrationPoint (p : point)
| KbClearEvents
| KbGetKeys (keyList pressed : list string)
| TextDraw (t : text_stim) (flipHoriz : bool)
| CircleDraw (radius : Q) (color : list Q) (pos : Q * Q)
| WinFlip
| PyPrint (args : list pyval).

(** The answers of the outside world: the n-th status poll, the keys the
    n-th [getKeys] call finds in the keyboard buffer, the n-th calibration
    point. *)
Record script : Type := mkScript {
  status_at : nat -> Z;
  keys_at : nat -> list string;
  point_at : nat -> point
}.

(** How many answers of each kind have been consumed, and the call log. *)
Record world : Type := mkWorld {
  n_status : nat;
  n_keys : nat;
  n_points : nat;
  log : list event
}.

Definition world0 : world := mkWorld 0 0 0 [].

(** ** The monad: state passing with a fuel result *)

Inductive run (A : Type) : Type :=
| Ret (a : A) (w : world)
| Spin (w : world).
Arguments Ret {A} a w.
Arguments Spin {A} w.

Definition M (A : Type) : Type := world -> run A.

Definition ret {A} (a : A) : M A := fun w => Ret a w.

Definition bind {A B} (m : M A) (k : A -> M B) : M B :=
  fun w => match m w with
           | Ret a w' => k a w'
           | Spin w' => Spin w'
           end.

Declare Scope calib_scope.
Delimit Scope calib_scope with calib.
Notation "x <- c1 ;; c2" := (bind c1 (fun x => c2))
  (at level 61, c1 at next level, right associativity) : calib_scope.
Notation "' pat <- c1 ;; c2" := (bind c1 (fun x => match x with pat => c2 end))
  (at level 61, pat pattern, c1 at next level, right associativity) : calib_scope.
Notation "c1 ;; c2" := (bind c1 (fun _ => c2))
  (at level 61, right associativity) : calib_scope.
Local Open Scope calib_scope.

Definition world_of {A} (r : run A) : world :=
  match r with Ret _ w => w | Spin w => w end.

Definition emit (e : event) : M unit :=
  fun w => Ret tt (mkWorld (n_status w) (n_keys w) (n_points w) (log w ++ [e])).

(** ** Python helpers *)

(** Truth value of a list: empty is false. *)
Definition truthy {A} (l : list A) : bool :=
  match l with [] => false | _ :: _ => true end.

(** [int(x)] of a float: truncation towards zero. *)
Definition py_int (x : Q) : Z := Z.quot (Qnum x) (Zpos (Qden x)).

Definition in_keyList (keyList : list string) (k : string) : bool :=
  existsb (String.eqb k) keyList.

(** ** The collaborators *)

Section Calls.

Variable sc : script.

(** [eye_get_status]: lines 186-189. *)
Definition eye_get_status : M Z :=
  fun w =>
    let v := status_at sc (n_status w) in
    Ret v (mkWorld (S (n_status w)) (n_keys w) (n_points w)
             (log w ++ [EyeGetStatus v])).

(** [eye_get_calibration_point]: lines 134-137. *)
Definition eye_get_calibration_point : M point :=
  fun w =>
    let p := point_at sc (n_points w) in
    Ret p (mkWorld (n_status w) (n_keys w) (S (n_points w))
             (log w ++ [EyeGetCalibrationPoint p])).

(** The remaining device calls return a flag that [calibrate] drops. *)
Definition eye_set_display_parameter (width height distance : Z) (pixelsize : Q)
  : M unit := emit (EyeSetDisplayParameter width height distance pixelsize).
Definition eye_set_display_offset (width_offset height_offset : Z) : M unit :=
  emit (EyeSetDisplayOffset width_offset height_offset).
Definition eye_start_stream (parameter : Z) : M unit :=
  emit (EyeStartStream parameter).
Definition eye_start_calibrate (points : Z) : M unit :=
  emit (EyeStartCalibrate points).
Definition eye_stop_calibration : M unit := emit EyeStopCalibration.
Definition eye_stop_stream : M unit := emit EyeStopStream.

(** [self.MRC_keyboard.getKeys(keyList = ..., waitRelease = False)]: the
    keys of [keyList] among those in the buffer. *)
Definition getKeys (keyList : list string) : M (list string) :=
  fun w =>
    let pressed := filter (in_keyList keyList) (keys_at sc (n_keys w)) in
    Ret pressed (mkWorld (n_status w) (S (n_keys w)) (n_points w)
                   (log w ++ [KbGetKeys keyList pressed])).

Definition clearEvents : M unit := emit KbClearEvents.
Definition text_draw (t : text_stim) (flipHoriz : bool) : M unit :=
  emit (TextDraw t flipHoriz).
Definition circle_draw (radius : Q) (color : list Q) (pos : Q * Q) : M unit :=
  emit (CircleDraw radius color pos).
Definition win_flip : M unit := emit WinFlip.
Definition print (args : list pyval) : M unit := emit (PyPrint args).

End Calls.

(** ** The routine *)

Inductive exn : Type :=
| UnboundLocalError (name : string).

(** How a call of [calibrate] ends: it returns ([None], always), or an
    exception leaves it. *)
Inductive completion : Type :=
| Returned
| Raised (e : exn).

Definition spin {A} : M A := fun w => Spin w.

Section Calibrate.

Variable sc : script.

(** The arguments of [calibrate] (line 246); [win] is the window the
    stimuli are drawn on. *)
Variable calibration_points : Z.
Variable screen_width screen_height : Z.
Variable distance_to_screen : Z.
Variable pixel_size : Q.
Variable dot_color : list Q.
Variable dot_size : Q.
Variable flipped : bool.

(** Lines 259-262. *)
Definition tracking_groesse : Z := screen_height.
Definition vertical_groesse : Z := tracking_groesse.
Definition x_displace : Z :=
  py_int (inject_Z (screen_width - vertical_groesse) / 2 - 8)%Q.
Definition y_displace : Z := -30.

(** The position of the dot, line 309:
    [(point[1]-tracking_groesse/2, tracking_groesse/2-point[2])]. *)
Definition dot_pos (p : point) : Q * Q :=
  ((p_x p - inject_Z tracking_groesse / 2)%Q,
   (inject_Z tracking_groesse / 2 - p_y p)%Q).

(** Lines 271-282: the intro prompt.  The result is
    [(calibration, calibration_message)]. *)
Fixpoint intro_loop (fuel : nat) (calibration calibration_message : bool)
  : M (bool * bool) :=
  if negb calibration_message then ret (calibration, calibration_message)
  else
    match fuel with
    | O => spin
    | S fuel' =>
        cancel_key <- getKeys sc ["q"; "escape"] ;;
        continue_key <- getKeys sc ["space"] ;;
        if truthy cancel_key then ret (false, false)
        else
          calibration_message' <-
            (if truthy continue_key
             then print [PyStr "starting calibration"] ;; ret false
             else ret calibration_message) ;;
          text_draw calibration_Text flipped ;;
          win_flip ;;
          intro_loop fuel' calibration calibration_message'
    end.

(** Lines 295-311: one calibration round, a frame per iteration.  The
    result is [(calibration, calibration_running)]. *)
Fixpoint collect_loop (fuel : nat) (calibration calibration_running : bool)
  : M (bool * bool) :=
  if negb calibration_running then ret (calibration, calibration_running)
  else
    match fuel with
    | O => spin
    | S fuel' =>
        cancel_key <- getKeys sc ["q"; "escape"] ;;
        if truthy cancel_key then
          print [PyStr "Calibration aborted"] ;;
          eye_stop_calibration ;;
          eye_stop_stream ;;
          ret (false, calibration_running)
        else
          s <- eye_get_status sc ;;
          calibration_running' <-
            (if (s =? 2)%Z
             then print [PyStr "calibration done"] ;;
                  eye_stop_calibration ;;
                  eye_stop_stream ;;
                  ret false
             else ret calibration_running) ;;
          point <- eye_get_calibration_point sc ;;
          circle_draw (dot_size / 2)%Q dot_color (dot_pos point) ;;
          win_flip ;;
          collect_loop fuel' calibration calibration_running'
    end.

(** Lines 315-328: the repeat prompt.  The result is
    [(calibration, repeat_message, repeat_calibration)]. *)
Fixpoint repeat_loop (fuel : nat)
  (calibration repeat_message repeat_calibration : bool)
  : M (bool * bool * bool) :=
  if negb (repeat_message && negb repeat_calibration)
  then ret (calibration, repeat_message, repeat_calibration)
  else
    match fuel with
    | O => spin
    | S fuel' =>
        cancel_key <- getKeys sc ["q"; "escape"; "space"] ;;
        repeat_key <- getKeys sc ["5"] ;;
        if truthy cancel_key then
          eye_stop_calibration ;;
          eye_stop_stream ;;
          ret (false, false, repeat_calibration)
        else
          repeat_calibration' <-
            (if truthy repeat_key
             then print [PyStr "repeating calibration"] ;; ret true
             else ret repeat_calibration) ;;
          text_draw repeat_Text flipped ;;
          win_flip ;;
          repeat_loop fuel' calibration repeat_message repeat_calibration'
    end.

(** Lines 284-293: the head of a round.  The result is
    [(calibration_running, repeat_calibration)]. *)
Definition collect_entry (repeat_calibration : bool) : M (bool * bool) :=
  s0 <- eye_get_status sc ;;
  print [PyInt s0] ;;
  s1 <- eye_get_status sc ;;
  r <- (if negb (s1 =? 2)%Z || repeat_calibration
        then eye_start_stream 0 ;;
             eye_start_calibrate calibration_points ;;
             ret (true, false)
        else ret (false, repeat_calibration)) ;;
  clearEvents ;;
  ret r.

(** Lines 312-328: after a round.  The result is
    [(calibration, repeat_calibration)]. *)
Definition per_point_check (fuel : nat) (calibration repeat_calibration : bool)
  : M (bool * bool) :=
  s <- eye_get_status sc ;;
  if (s =? 2)%Z then
    clearEvents ;;
    r <- repeat_loop fuel calibration true repeat_calibration ;;
    ret (fst (fst r), snd r)
  else ret (calibration, repeat_calibration).

(** Lines 283-328: [while calibration:]. *)
Fixpoint main_loop (fuel : nat) (calibration repeat_calibration : bool)
  : M unit :=
  if negb calibration then ret tt
  else
    match fuel with
    | O => spin
    | S fuel' =>
        e <- collect_entry repeat_calibration ;;
        c <- collect_loop fuel' calibration (fst e) ;;
        k <- per_point_check fuel' (fst c) (snd e) ;;
        main_loop fuel' (fst k) (snd k)
    end.

(** Lines 249-330.  The two text stimuli of lines 250-253 are built here
    and drawn in the prompts.  [calibration_message] is bound at line 269
    only when the second status poll is not 2; line 271 reads it. *)
Definition calibrate (fuel : nat) : M completion :=
  s <- eye_get_status sc ;;
  if negb (s =? -1)%Z then
    let calibration := true in
    let repeat_calibration := false in
    eye_set_display_parameter vertical_groesse tracking_groesse
      distance_to_screen pixel_size ;;
    eye_set_display_offset x_displace y_displace ;;
    print [PyInt x_displace; PyInt y_displace] ;;
    s' <- eye_get_status sc ;;
    let calibration_message :=
      if negb (s' =? 2)%Z then Some true else None in
    clearEvents ;;
    match calibration_message with
    | None => ret (Raised (UnboundLocalError "calibration_message"))
    | Some calibration_message =>
        i <- intro_loop fuel calibration calibration_message ;;
        main_loop fuel (fst i) repeat_calibration ;;
        ret Returned
    end
  else
    print [PyStr "error. Eyetracker not connected?"] ;;
    ret Returned.

End Calibrate.

(** The defaults of line 246. *)
Definition calibrate_default (sc : script) (fuel : nat) : M completion :=
  calibrate sc 9 1920 1080 130 (333 # 1000) [1%Q; 1%Q; 1%Q] 20%Q true fuel.

(** A script from finite lists of answers; past their end the device
    reports status 2, no key is down and the point is the origin. *)
Definition script_of (ss : list Z) (ks : list (list string)) (ps : list point)
  : script :=
  mkScript (fun n => nth n ss 2) (fun n => nth n ks [])
           (fun n => nth n ps (mkPoint 0 0 0)).

(** ** Reading the log *)

(** The vendor-library calls, and among them those that change the device. *)
Definition is_device_call (e : event) : bool :=
  match e with
  | EyeGetStatus _ | EyeSetDisplayParameter _ _ _ _ | EyeSetDisplayOffset _ _
  | EyeStartStream _ | EyeStartCalibrate _ | EyeStopCalibration
  | EyeStopStream | EyeGetCalibrationPoint _ => true
  | _ => false
  end.

Definition is_device_control (e : event) : bool :=
  match e with
  | EyeSetDisplayParameter _ _ _ _ | EyeSetDisplayOffset _ _
  | EyeStartStream _ | EyeStartCalibrate _ | EyeStopCalibration
  | EyeStopStream => true
  | _ => false
  end.

Definition is_start_call (e : event) : bool :=
  match e with
  | EyeStartStream _ | EyeStartCalibrate _ => true
  | _ => false
  end.

(** Stimulus draws and frame flips. *)
Definition is_presentation_call (e : event) : bool :=
  match e with
  | TextDraw _ _ | CircleDraw _ _ _ | WinFlip => true
  | _ => false
  end.

Definition device_calls (l : list event) : list event := filter is_device_call l.
Definition device_controls (l : list event) : list event :=
  filter is_device_control l.
Definition start_calls (l : list event) : list event := filter is_start_call l.
Definition presentation_calls (l : list event) : list event :=
  filter is_presentation_call l.

(** Whether the gaze stream runs after a log, given whether it ran before. *)
Definition stream_step (open : bool) (e : event) : bool :=
  match e with
  | EyeStartStream _ => true
  | EyeStopStream => false
  | _ => open
  end.

Definition stream_after (open : bool) (l : list event) : bool :=
  fold_left stream_step l open.

Definition stream_open (l : list event) : bool := stream_after false l.

Definition is_point_read (e : event) : bool :=
  match e with EyeGetCalibrationPoint _ => true | _ => false end.

Definition is_ret {A} (r : run A) : bool :=
  match r with Ret _ _ => true | Spin _ => false end.

(** Every calibration point read is at once drawn as a dot of the given
    radius and colour at [pos p], and the frame is flipped. *)
Fixpoint points_rendered (radius : Q) (color : list Q) (pos : point -> Q * Q)
  (l : list event) : Prop :=
  match l with
  | [] => True
  | EyeGetCalibrationPoint p :: rest =>
      (exists rest', rest = CircleDraw radius color (pos p) :: WinFlip :: rest')
      /\ points_rendered radius color pos rest
  | _ :: rest => points_rendered radius color pos rest
  end.

Definition rendered (screen_height : Z) (dot_color : list Q) (dot_size : Q)
  : list event -> Prop :=
  points_rendered (dot_size / 2)%Q dot_color (dot_pos screen_height).

Definition is_stop_calibration (e : event) : bool :=
  match e with EyeStopCalibration => true | _ => false end.

Definition is_stop_stream (e : event) : bool :=
  match e with EyeStopStream => true | _ => false end.

Definition count (f : event -> bool) (l : list event) : nat :=
  List.length (filter f l).

(** What a key poll finds: an abort key, the space bar, the repeat key. *)
Definition abort_pressed (sc : script) (n : nat) : bool :=
  truthy (filter (in_keyList ["q"; "escape"]) (keys_at sc n)).

Definition space_pressed (sc : script) (n : nat) : bool :=
  truthy (filter (in_keyList ["space"]) (keys_at sc n)).

Definition prompt_end_pressed (sc : script) (n : nat) : bool :=
  truthy (filter (in_keyList ["q"; "escape"; "space"]) (keys_at sc n)).

Definition repeat_pressed (sc : script) (n : nat) : bool :=
  truthy (filter (in_keyList ["5"]) (keys_at sc n)).

(** The status polls from the n-th on answer the values of [l], in order. *)
Fixpoint polls_are (sc : script) (n : nat) (l : list Z) : bool :=
  match l with
  | [] => true
  | s :: l' => (status_at sc n =? s)%Z && polls_are sc (S n) l'
  end.

(** None of the [k] key polls from the n-th on finds an abort key. *)
Fixpoint no_abort_for (sc : script) (n k : nat) : bool :=
  match k with
  | O => true
  | S k' => negb (abort_pressed sc n) && no_abort_for sc (S n) k'
  end.

(** The log of one frame of the calibration round in which no abort key
    is down and the status poll answers [s], not 2. *)
Definition frame_log (radius : Q) (color : list Q) (pos : point -> Q * Q)
  (s : Z) (p : point) : list event :=
  [KbGetKeys ["q"; "escape"] []; EyeGetStatus s; EyeGetCalibrationPoint p;
   CircleDraw radius color (pos p); WinFlip].

(** The log of the frame whose status poll answers 2. *)
Definition last_frame_log (radius : Q) (color : list Q) (pos : point -> Q * Q)
  (p : point) : list event :=
  [KbGetKeys ["q"; "escape"] []; EyeGetStatus 2;
   PyPrint [PyStr "calibration done"]; EyeStopCalibration; EyeStopStream;
   EyeGetCalibrationPoint p; CircleDraw radius color (pos p); WinFlip].

(** ** Sample sessions *)

(** A full session: space at the intro prompt, four frames with per-frame
    status -1, 0, 0, 2, then space at the repeat prompt. *)
Definition full_session : script :=
  script_of [0; 0; 0; 0; -1; 0; 0; 2; 2]
            [[]; ["space"]; []; []; []; []; ["space"]; []]
            [mkPoint 1 540 540; mkPoint 1 540 540; mkPoint 2 100 100;
             mkPoint 2 100 100].

(** The device is not connected. *)
Definition not_connected : script := script_of [-1] [] [].

(** The user presses q at the intro prompt. *)
Definition abort_at_intro : script := script_of [0; 0] [["q"]] [].

(** The user presses escape in the first frame of the calibration round. *)
Definition abort_at_first_frame : script :=
  script_of [0; 0; 0; 0; 0] [[]; ["space"]; ["escape"]] [].

(** The user presses q in the first frame of the round while the device
    reads 2 at the check that follows. *)
Definition abort_then_calibrated : script :=
  script_of [0; 0; 0; 0; 2] [[]; ["space"]; ["q"]] [].

(** A calibrated device; the user presses 5 at the repeat prompt. *)
Definition recalibrate : script :=
  script_of [0; 0; 2; 2; 2; 2; 2] [[]; ["space"]; []; ["5"]] [].

(** Key 5 at the repeat prompt of a device that reads 2. *)
Definition prompt_5 : script := script_of [2; 2] [[]; ["5"]] [].

(** The same prompt answered with space, and with q. *)
Definition prompt_space : script := script_of [] [["space"]; []] [].
Definition prompt_q : script := script_of [] [["q"]; []] [].

(** A calibration round whose per-frame status polls answer -1, 0, 0, 2. *)
Definition four_polls : script :=
  script_of [-1; 0; 0; 2; 2] [[]; []; []; []; ["space"]; []]
            [mkPoint 1 540 540; mkPoint 1 540 540; mkPoint 2 100 100;
             mkPoint 2 100 100].

(** The user presses other keys, then space, at the intro prompt. *)
Definition intro_keys : script :=
  script_of [] [[]; ["a"]; ["5"]; []; []; ["space"]] [].

(** The device already reports status 2 when [calibrate] is called. *)
Definition already_calibrated : script := script_of [2; 2] [] [].

(** ** The order of calls *)

(** The calls by kind, without their arguments. *)
Inductive call_kind : Type :=
| KStatus | KConfig | KStartStream | KStartCalibrate | KStopCalibration
| KStopStream | KPoint | KKeyboard | KText | KCircle | KFlip | KPrint.

Definition kind_of (e : event) : call_kind :=
  match e with
  | EyeGetStatus _ => KStatus
  | EyeSetDisplayParameter _ _ _ _ | EyeSetDisplayOffset _ _ => KConfig
  | EyeStartStream _ => KStartStream
  | EyeStartCalibrate _ => KStartCalibrate
  | EyeStopCalibration => KStopCalibration
  | EyeStopStream => KStopStream
  | EyeGetCalibrationPoint _ => KPoint
  | KbClearEvents | KbGetKeys _ _ => KKeyboard
  | TextDraw _ _ => KText
  | CircleDraw _ _ _ => KCircle
  | WinFlip => KFlip
  | PyPrint _ => KPrint
  end.

(** [after_ok a b]: a call of kind [b] may come right after one of kind [a].
    A stream start is followed by a calibration start, a calibration stop by
    a stream stop, a point read by its dot, a draw by the flip. *)
Definition after_ok (a b : call_kind) : bool :=
  match a, b with
  | KStartStream, KStartCalibrate => true
  | KStartStream, _ => false
  | KStopCalibration, KStopStream => true
  | KStopCalibration, _ => false
  | KPoint, KCircle => true
  | KPoint, _ => false
  | KText, KFlip | KCircle, KFlip => true
  | KText, _ | KCircle, _ => false
  | _, _ => true
  end.

(** [before_ok a b]: a call of kind [a] may come right before one of kind
    [b].  The four kinds above come after nothing else. *)
Definition before_ok (a b : call_kind) : bool :=
  match b, a with
  | KStartCalibrate, KStartStream => true
  | KStartCalibrate, _ => false
  | KStopStream, KStopCalibration => true
  | KStopStream, _ => false
  | KCircle, KPoint => true
  | KCircle, _ => false
  | KFlip, KText | KFlip, KCircle => true
  | KFlip, _ => false
  | _, _ => true
  end.

Definition ok_pair (a b : call_kind) : bool := after_ok a b && before_ok a b.

(** Kinds a log may begin with, and end with. *)
Definition free_start (k : call_kind) : bool :=
  match k with
  | KStartCalibrate | KStopStream | KCircle | KFlip => false
  | _ => true
  end.

Definition free_end (k : call_kind) : bool :=
  match k with
  | KStartStream | KStopCalibration | KPoint | KText | KCircle => false
  | _ => true
  end.

Fixpoint chain (a : call_kind) (l : list event) : bool :=
  match l with
  | [] => free_end a
  | e :: rest => ok_pair a (kind_of e) && chain (kind_of e) rest
  end.

Definition well_paired (l : list event) : bool :=
  match l with
  | [] => true
  | e :: rest => free_start (kind_of e) && chain (kind_of e) rest
  end.

(** The arguments of the start calls. *)
Definition start_args (calibration_points : Z) (e : event) : Prop :=
  match e with
  | EyeStartStream parameter => parameter = 0
  | EyeStartCalibrate points => points = calibration_points
  | _ => True
  end.

(** No stream is started while one runs. *)
Fixpoint starts_when_closed (open : bool) (l : list event) : bool :=
  match l with
  | [] => true
  | EyeStartStream _ :: rest => negb open && starts_when_closed true rest
  | EyeStopStream :: rest => starts_when_closed false rest
  | _ :: rest => starts_when_closed open rest
  end.

Definition is_config (e : event) : bool :=
  match e with
  | EyeSetDisplayParameter _ _ _ _ | EyeSetDisplayOffset _ _ => true
  | _ => false
  end.

(** A poll of a key list with [q] in it that found a key. *)
Definition is_cancel_hit (e : event) : bool :=
  match e with
  | KbGetKeys keyList pressed => in_keyList keyList "q" && truthy pressed
  | _ => false
  end.

(** A property of the value a computation ends with. *)
Definition ret_prop {A} (r : run A) (P : A -> Prop) : Prop :=
  match r with
  | Ret a _ => P a
  | Spin _ => True
  end.

(** The log without the look of the stimuli: the orientation of the
    texts, the radius and the colour of the dots. *)
Definition erase_look (e : event) : event :=
  match e with
  | TextDraw t _ => TextDraw t false
  | CircleDraw _ _ pos => CircleDraw 0 [] pos
  | _ => e
  end.

(** Two worlds that differ at most in the look of the stimuli drawn. *)
Definition same_but_look (w1 w2 : world) : Prop :=
  n_status w1 = n_status w2 /\ n_keys w1 = n_keys w2 /\
  n_points w1 = n_points w2 /\
  map erase_look (log w1) = map erase_look (log w2).

Definition same_run {A} (r1 r2 : run A) : Prop :=
  match r1, r2 with
  | Ret a w1, Ret b w2 => a = b /\ same_but_look w1 w2
  | Spin w1, Spin w2 => same_but_look w1 w2
  | _, _ => False
  end.

Definition is_get_keys (e : event) : bool :=
  match e with KbGetKeys _ _ => true | _ => false end.

(** A device that never reports status 2, with no key ever down. *)
Definition silent_device : script :=
  mkScript (fun _ => 0) (fun _ => []) (fun _ => mkPoint 0 0 0).

(** A device whose status reads 2 at the head of each pass of the main
    loop and 0 at the check that ends it, while the user holds [q] down. *)
Definition flickering_device : script :=
  mkScript (fun n => if (Nat.modulo n 3 =? 2)%nat then 0 else 2)
           (fun _ => ["q"]) (fun _ => mkPoint 0 0 0).

(** ** Messages to the tracker

    [eye_set_software_event] (lines 215-217) and [send_message]
    (lines 335-336). *)

From Stdlib Require Strings.Byte.

(** A Python [str]: its code points. *)
Definition pystr : Type := list N.

Inductive codec_error : Type :=
| UnicodeEncodeError (codec : string) (position : nat)
| UnicodeDecodeError (codec : string).

Definition byte_of (c : N) : Byte.byte :=
  match Byte.of_N c with
  | Some b => b
  | None => Byte.x00
  end.

(** [s.encode('ascii')]: the code points below 128 as bytes; the first one
    that is not raises, with its position.  [pos] is the position of the
    head of [s]. *)
Fixpoint encode_ascii (pos : nat) (s : pystr) : codec_error + list Byte.byte :=
  match s with
  | [] => inr []
  | c :: rest =>
      if (c <? 128)%N then
        match encode_ascii (S pos) rest with
        | inr bs => inr (byte_of c :: bs)
        | inl e => inl e
        end
      else inl (UnicodeEncodeError "ascii" pos)
  end.

(** The library calls of this part, with the buffer passed. *)
Inductive lib_call : Type :=
| LibSetSoftwareEvent (event_bytes : list Byte.byte).

(** [eye_set_software_event(value)]; [answer] is what the library
    returns.  The result comes with the library calls made so far. *)
Definition eye_set_software_event (value : pystr) (answer : Z)
  (calls : list lib_call) : (codec_error + Z) * list lib_call :=
  match encode_ascii 0 value with
  | inl e => (inl e, calls)
  | inr bs =>
      let event_bytes := bs ++ [Byte.x00] in
      (inr answer, calls ++ [LibSetSoftwareEvent event_bytes])
  end.

(** [send_message(msg)] drops the answer. *)
Definition send_message (msg : pystr) (answer : Z) (calls : list lib_call)
  : (codec_error + unit) * list lib_call :=
  match eye_set_software_event msg answer calls with
  | (inl e, calls') => (inl e, calls')
  | (inr _, calls') => (inr tt, calls')
  end.

(** What a C function reads from a [char *]: the bytes before the first
    NUL. *)
Fixpoint c_str (bs : list Byte.byte) : list Byte.byte :=
  match bs with
  | [] => []
  | b :: rest => if Byte.eqb b Byte.x00 then [] else b :: c_str rest
  end.

(** The code points of a [str] before its first NUL character. *)
Fixpoint before_nul (s : pystr) : pystr :=
  match s with
  | [] => []
  | c :: rest => if (c =? 0)%N then [] else c :: before_nul rest
  end.

(** "ok" and "café" *)
Definition msg_ok : pystr := [111; 107]%N.
Definition msg_cafe : pystr := [99; 97; 102; 233]%N.

(** ** Reading events

    [eye_get_events] (lines 144-161). *)

(** The [EyeEvent] structure of lines 24-35; [event_text] is the
    [c_char * 256] array. *)
Record EyeEvent : Type := mkEyeEvent {
  eye : Z;
  event_type : Z;
  timestamp : Q;
  event_text : list Byte.byte;
  param1 : Q; param2 : Q; param3 : Q; param4 : Q; param5 : Q
}.

(** The dictionary appended for an event. *)
Record event_dict : Type := mkEventDict {
  d_eye : Z;
  d_event_type : Z;
  d_timestamp : Q;
  d_event_text : pystr;
  d_param1 : Q; d_param2 : Q; d_param3 : Q; d_param4 : Q; d_param5 : Q
}.

Section Events.

(** [bytes.decode('utf-8')] of Python: [None] when it raises. *)
Variable decode_utf8 : list Byte.byte -> option pystr.

(** The n-th call of [eye_get_events_matlab] answers a pointer to an
    event, or NULL. *)
Variable answers : nat -> option EyeEvent.

(** Reading the [event_text] field of the structure gives the bytes of the
    array before its first NUL. *)
Definition dict_of (evt : EyeEvent) : codec_error + event_dict :=
  match decode_utf8 (c_str (firstn 256 (event_text evt))) with
  | None => inl (UnicodeDecodeError "utf-8")
  | Some text =>
      inr (mkEventDict (eye evt) (event_type evt) (timestamp evt) text
             (param1 evt) (param2 evt) (param3 evt) (param4 evt)
             (param5 evt))
  end.

(** The [for _ in range(count)] loop, [n] iterations to go; [k] library
    calls have been made.  The result comes with the number of calls. *)
Fixpoint get_events_loop (n k : nat) (events : list event_dict)
  : (codec_error + list event_dict) * nat :=
  match n with
  | O => (inr events, k)
  | S n' =>
      match answers k with
      | None => get_events_loop n' (S k) events
      | Some evt =>
          match dict_of evt with
          | inl e => (inl e, S k)
          | inr d => get_events_loop n' (S k) (events ++ [d])
          end
      end
  end.

(** [eye_get_events(count)]: [range(count)] is empty for [count <= 0]. *)
Definition eye_get_events (count : Z)
  : (codec_error + list event_dict) * nat :=
  get_events_loop (Z.to_nat count) 0 [].

(** The events among the answers [k], ..., [k + n - 1]. *)
Fixpoint answered (n k : nat) : list EyeEvent :=
  match n with
  | O => []
  | S n' =>
      match answers k with
      | None => answered n' (S k)
      | Some evt => evt :: answered n' (S k)
      end
  end.

End Events.

(** A decoder for the samples: ASCII bytes only. *)
Definition decode_ascii_only (bs : list Byte.byte) : option pystr :=
  if forallb (fun b => (Byte.to_N b <? 128)%N) bs
  then Some (map Byte.to_N bs) else None.

Definition sample_event (text : list Byte.byte) : EyeEvent :=
  mkEyeEvent 0 1 0 text 0 0 0 0 0.

(** Two events with a NULL answer between them. *)
Definition sample_answers (n : nat) : option EyeEvent :=
  match n with
  | 0%nat => Some (sample_event [Byte.x61; Byte.x00; Byte.x62])
  | 2%nat => Some (sample_event [Byte.x63])
  | _ => None
  end.

(** ** The keyboard of the tracker

    [__init__], lines 39-47, over PsychoPy's [DeviceManager]: a table from
    device names to devices. *)

Record device : Type := mkDevice { deviceClass : string; handle : nat }.

Definition DeviceManager : Type := list (string * device).

(** [DeviceManager.getDevice(deviceName)]: the device, or [None]. *)
Fixpoint getDevice (dm : DeviceManager) (deviceName : string)
  : option device :=
  match dm with
  | [] => None
  | (name, d) :: rest =>
      if (name =? deviceName)%string then Some d
      else getDevice rest deviceName
  end.

(** [DeviceManager.addDevice(deviceClass, deviceName)]: a new device,
    entered in the table under its name. *)
Definition addDevice (dm : DeviceManager) (class deviceName : string)
  : device * DeviceManager :=
  let d := mkDevice class (List.length dm) in
  (d, dm ++ [(deviceName, d)]).

(** Lines 40-47: [self.MRC_keyboard] of the new object, and the table. *)
Definition init_keyboard (dm : DeviceManager)
  : option device * DeviceManager :=
  match getDevice dm "MRC_keyboard" with
  | None =>
      let (d, dm') := addDevice dm "keyboard" "MRC_keyboard" in (Some d, dm')
  | Some _ => (getDevice dm "MRC_keyboard", dm)
  end.

(** ** More readings of the log *)

Definition is_circle_draw (e : event) : bool :=
  match e with CircleDraw _ _ _ => true | _ => false end.

Definition is_flip (e : event) : bool :=
  match e with WinFlip => true | _ => false end.

Definition is_start_stream (e : event) : bool :=
  match e with EyeStartStream _ => true | _ => false end.

(** The cancel poll of the repeat prompt (line 316), the only poll that
    lists [space] with the abort keys. *)
Definition is_prompt_poll (e : event) : bool :=
  match e with
  | KbGetKeys keyList _ => in_keyList keyList "space" && in_keyList keyList "q"
  | _ => false
  end.

(** The log of [k] frames of a round in which no abort key is down and no
    status poll answers 2, from the status poll [n_s] and the point
    [n_p] on. *)
Fixpoint round_frames (radius : Q) (color : list Q) (pos : point -> Q * Q)
  (sc : script) (n_s n_p k : nat) : list event :=
  match k with
  | O => []
  | S k' =>
      frame_log radius color pos (status_at sc n_s) (point_at sc n_p)
      ++ round_frames radius color pos sc (S n_s) (S n_p) k'
  end.

(** A session whose first round polls -1, 0, 0, 2 frame by frame, while
    the check after the round reads 0; the user aborts the round that
    follows. *)
Definition four_polls_then_0 : script :=
  script_of [0; 0; 0; 0; -1; 0; 0; 2; 0; 0; 0; 0]
            [[]; ["space"]; []; []; []; []; ["q"]]
            [mkPoint 1 540 540; mkPoint 1 540 540; mkPoint 2 100 100;
             mkPoint 2 100 100].

(** What is left of a pass of the main loop once the head of the round
    is done (lines 295-328), and of the loop after it: the round with
    [calibration_running = r] and [frames] frames of fuel left, the check,
    the next passes. *)
Definition rest_of_pass (sc : script) (calibration_points screen_height : Z)
  (dot_color : list Q) (dot_size : Q) (flipped : bool)
  (frames fuel : nat) (c r e : bool) : M unit :=
  x <- collect_loop sc screen_height dot_color dot_size frames c r ;;
  k <- per_point_check sc flipped fuel (fst x) e ;;
  main_loop sc calibration_points screen_height dot_color dot_size flipped
    fuel (fst k) (snd k).

(** ** Proof tools *)

Ltac run_calls :=
  cbv [bind ret spin emit eye_get_status eye_get_calibration_point
       eye_set_display_parameter eye_set_display_offset eye_start_stream
       eye_start_calibrate eye_stop_calibration eye_stop_stream getKeys
       clearEvents text_draw circle_draw win_flip print];
  cbn [world_of log n_status n_keys n_points fst snd].

(** Bring [(l ++ [a]) ++ [b] ++ ...] to [l ++ a :: b :: ...]. *)
Ltac flat_log := rewrite <- ?app_assoc; cbn [app].

Lemma stream_after_app (b : bool) (l1 l2 : list event) :
  stream_after b (l1 ++ l2) = stream_after (stream_after b l1) l2.
Proof. apply fold_left_app. Qed.

Lemma stream_after_cons (b : bool) (e : event) (l : list event) :
  stream_after b (e :: l) = stream_after (stream_step b e) l.
Proof. reflexivity. Qed.

Lemma stream_after_true_stop (post : list event) :
  stream_after true post = false -> In EyeStopStream post.
Proof.
  induction post as [|e post IH]; cbn; [discriminate|].
  destruct e; cbn; intros H; auto.
Qed.

Lemma stream_closed_matched (b : bool) (l : list event) :
  stream_after b l = false ->
  forall pre par post, l = pre ++ EyeStartStream par :: post ->
                       In EyeStopStream post.
Proof.
  intros H pre par post ->.
  rewrite stream_after_app in H. cbn in H.
  now apply stream_after_true_stop.
Qed.

Lemma quiet_stream_after (l : list event) :
  Forall (fun e => is_device_call e = false) l ->
  forall b, stream_after b l = b.
Proof.
  induction 1 as [|e l He _ IH]; intros b; cbn; [reflexivity|].
  destruct e; try discriminate He; apply IH.
Qed.

Lemma no_start_stream_after (l : list event) :
  Forall (fun e => is_start_call e = false) l ->
  stream_after false l = false.
Proof.
  induction 1 as [|e l He _ IH]; cbn; [reflexivity|].
  destruct e; try discriminate He; apply IH.
Qed.

Section Rendering.

Variables (radius : Q) (color : list Q) (pos : point -> Q * Q).

Lemma points_rendered_app (l1 l2 : list event) :
  points_rendered radius color pos l1 ->
  points_rendered radius color pos l2 ->
  points_rendered radius color pos (l1 ++ l2).
Proof.
  induction l1 as [|e l1 IH]; cbn [app]; [easy|].
  destruct e; cbn [points_rendered]; auto.
  intros [(rest' & ->) H1] H2. split; [|auto].
  now exists (rest' ++ l2).
Qed.

Lemma no_read_points_rendered (l : list event) :
  Forall (fun e => is_point_read e = false) l ->
  points_rendered radius color pos l.
Proof.
  induction 1 as [|e l He _ IH]; cbn; [exact I|].
  destruct e; try discriminate He; exact IH.
Qed.


End Rendering.

(** ** What each loop writes *)

Section LoopLogs.

Variable sc : script.
Variables (calibration_points screen_width screen_height distance_to_screen : Z).
Variables (pixel_size : Q) (dot_color : list Q) (dot_size : Q) (flipped : bool).

Local Abbreviation rendered := (rendered screen_height dot_color dot_size).

(** The intro prompt makes no device call. *)
Lemma intro_loop_log (fuel : nat) :
  forall c m w, exists new,
    log (world_of (intro_loop sc flipped fuel c m w)) = log w ++ new /\
    Forall (fun e => is_device_call e = false) new.
Proof.
  induction fuel as [|fuel IH]; intros c m w; cbn [intro_loop];
    destruct m; cbn [negb]; try (exists []; split; [now rewrite app_nil_r|easy]).
  run_calls.
  destruct (truthy _); run_calls.
  - eexists. split; [flat_log; reflexivity|]. now repeat constructor.
  - destruct (truthy _); run_calls;
      match goal with |- context [intro_loop _ _ _ ?c ?m ?w1] =>
        destruct (IH c m w1) as (new & -> & Hs) end;
      cbn [log]; eexists; (split; [flat_log; reflexivity|]);
      now repeat constructor.
Qed.

(** The repeat prompt starts nothing and reads no point. *)
Lemma repeat_loop_log (fuel : nat) :
  forall c m r w, exists new,
    log (world_of (repeat_loop sc flipped fuel c m r w)) = log w ++ new /\
    Forall (fun e => is_start_call e = false) new /\
    Forall (fun e => is_point_read e = false) new.
Proof.
  induction fuel as [|fuel IH]; intros c m r w; cbn [repeat_loop];
    destruct m, r; cbn [negb andb];
    try (exists []; split; [now rewrite app_nil_r|easy]).
  run_calls.
  destruct (truthy _); run_calls.
  - eexists. split; [flat_log; reflexivity|]. split; now repeat constructor.
  - destruct (truthy _); run_calls;
      match goal with |- context [repeat_loop _ _ _ ?c ?m ?r ?w1] =>
        destruct (IH c m r w1) as (new & -> & Hs & Hp) end;
      cbn [log]; eexists; (split; [flat_log; reflexivity|]);
      split; now repeat constructor.
Qed.

(** A calibration round draws every point it reads, and when it ends the
    stream it was entered with is stopped. *)
Lemma collect_loop_log (fuel : nat) :
  forall c r w, exists new,
    log (world_of (collect_loop sc screen_height dot_color dot_size fuel c r w))
      = log w ++ new /\
    rendered new /\
    (is_ret (collect_loop sc screen_height dot_color dot_size fuel c r w) = true ->
     forall b, stream_after b new = if r then false else b).
Proof.
  induction fuel as [|fuel IH]; intros c r w; cbn [collect_loop];
    destruct r; cbn [negb];
    try (exists []; split; [now rewrite app_nil_r|easy]).
  run_calls.
  destruct (truthy _); run_calls.
  - eexists. split; [flat_log; reflexivity|]. split; [exact I|easy].
  - destruct (_ =? 2)%Z; run_calls;
      match goal with |- context [collect_loop _ _ _ _ _ ?c ?r ?w1] =>
        destruct (IH c r w1) as (new & -> & Hp & Hs) end;
      cbn [log]; eexists; (split; [flat_log; reflexivity|]);
      (split; [cbn; split; [eauto|exact Hp]|]);
      intros Hr b; specialize (Hs Hr); cbn; apply Hs.
Qed.

Lemma collect_entry_log (r : bool) (w : world) :
  exists e w' new,
    collect_entry sc calibration_points r w = Ret e w' /\
    log w' = log w ++ new /\
    Forall (fun e => is_point_read e = false) new /\
    stream_after false new = fst e.
Proof.
  unfold collect_entry. run_calls.
  destruct (negb _ || r); run_calls;
    do 3 eexists; (split; [reflexivity|]); cbn [log fst];
    (split; [flat_log; reflexivity|]); split;
    solve [now repeat constructor].
Qed.

Lemma per_point_check_log (fuel : nat) (c r : bool) (w : world) :
  exists new,
    log (world_of (per_point_check sc flipped fuel c r w)) = log w ++ new /\
    Forall (fun e => is_start_call e = false) new /\
    Forall (fun e => is_point_read e = false) new.
Proof.
  unfold per_point_check. run_calls.
  destruct (_ =? 2)%Z; run_calls.
  - match goal with |- context [repeat_loop _ _ _ ?c ?m ?r ?w1] =>
      destruct (repeat_loop_log fuel c m r w1) as (new & H & Hs & Hp);
      destruct (repeat_loop sc flipped fuel c m r w1) end;
      cbn [world_of log] in *; rewrite H; eexists;
      (split; [flat_log; reflexivity|]); split; now repeat constructor.
  - eexists; (split; [flat_log; reflexivity|]); split; now repeat constructor.
Qed.

(** The main loop draws every point it reads, and leaves no stream open
    when it ends. *)
Lemma main_loop_log (fuel : nat) :
  forall c r w, exists new,
    log (world_of (main_loop sc calibration_points screen_height dot_color
                     dot_size flipped fuel c r w)) = log w ++ new /\
    rendered new /\
    (is_ret (main_loop sc calibration_points screen_height dot_color
               dot_size flipped fuel c r w) = true ->
     stream_after false new = false).
Proof.
  induction fuel as [|fuel IH]; intros c r w; cbn [main_loop];
    destruct c; cbn [negb];
    try (exists []; split; [now rewrite app_nil_r|easy]).
  unfold bind.
  destruct (collect_entry_log r w) as (e & w1 & n1 & -> & L1 & P1 & S1).
  destruct (collect_loop_log fuel true (fst e) w1) as (n2 & L2 & P2 & S2).
  destruct (collect_loop _ _ _ _ _ _ _ w1) as [x w2|w2];
    cbn [world_of is_ret] in *.
  2:{ exists (n1 ++ n2). rewrite L2, L1, app_assoc. split; [reflexivity|].
      split; [|easy].
      apply points_rendered_app; [now apply no_read_points_rendered|exact P2]. }
  destruct (per_point_check_log fuel (fst x) (snd e) w2) as (n3 & L3 & S3 & P3).
  destruct (per_point_check _ _ _ _ _ w2) as [k w3|w3];
    cbn [world_of is_ret] in *.
  2:{ exists (n1 ++ n2 ++ n3). rewrite L3, L2, L1, <- !app_assoc.
      split; [reflexivity|]. split; [|easy].
      repeat apply points_rendered_app; auto using no_read_points_rendered. }
  destruct (IH (fst k) (snd k) w3) as (n4 & L4 & P4 & S4).
  exists (n1 ++ n2 ++ n3 ++ n4). rewrite L4, L3, L2, L1, <- !app_assoc.
  split; [reflexivity|]. split.
  - repeat apply points_rendered_app; auto using no_read_points_rendered.
  - intros Hr. rewrite !stream_after_app, S1, (S2 eq_refl).
    replace (if fst e then false else fst e) with false by now destruct (fst e).
    rewrite (no_start_stream_after n3 S3). auto.
Qed.

(** The whole routine: what it writes when the device is connected and
    when it is not. *)
Lemma calibrate_log (fuel : nat) (w : world) :
  exists new,
    log (world_of (calibrate sc calibration_points screen_width screen_height
                     distance_to_screen pixel_size dot_color dot_size flipped
                     fuel w)) = log w ++ new /\
    rendered new /\
    (is_ret (calibrate sc calibration_points screen_width screen_height
               distance_to_screen pixel_size dot_color dot_size flipped
               fuel w) = true ->
     stream_after false new = false) /\
    (status_at sc (n_status w) <> -1 ->
     exists rest,
       new = EyeGetStatus (status_at sc (n_status w))
             :: EyeSetDisplayParameter screen_height screen_height
                  distance_to_screen pixel_size
             :: EyeSetDisplayOffset
                  (py_int (inject_Z (screen_width - screen_height) / 2 - 8)%Q)
                  (-30)
             :: rest) /\
    (status_at sc (n_status w) = -1 ->
     new = [EyeGetStatus (-1); PyPrint [PyStr "error. Eyetracker not connected?"]]).
Proof.
  unfold calibrate. run_calls.
  destruct (Z.eqb_spec (status_at sc (n_status w)) (-1)) as [E|E];
    cbn [negb]; run_calls.
  { rewrite E. eexists. split; [flat_log; reflexivity|].
    repeat split; try easy. }
  destruct (negb (_ =? 2)%Z); run_calls.
  2:{ eexists. split; [flat_log; reflexivity|].
      repeat split; try easy. intros _. eexists. reflexivity. }
  match goal with |- context [intro_loop _ _ _ ?c ?m ?w1] =>
    destruct (intro_loop_log fuel c m w1) as (n1 & L1 & Q1);
    destruct (intro_loop sc flipped fuel c m w1) as [i w2|w2] end;
    cbn [world_of is_ret log] in *.
  2:{ rewrite L1. eexists. split; [flat_log; reflexivity|].
      split; [|split; [easy|split; [intros _; eexists; reflexivity|easy]]].
      cbn. apply no_read_points_rendered.
      eapply Forall_impl; [|exact Q1]. now intros []. }
  destruct (main_loop_log fuel (fst i) false w2) as (n2 & L2 & P2 & S2).
  destruct (main_loop _ _ _ _ _ _ _ _ _ w2) as [u w3|w3];
    cbn [world_of is_ret log] in *; rewrite L2, L1;
    eexists; (split; [flat_log; reflexivity|]);
    (split; [|split; [|split; [intros _; eexists; reflexivity|easy]]]);
    try easy.
  - cbn. apply points_rendered_app; [|exact P2].
    apply no_read_points_rendered.
    eapply Forall_impl; [|exact Q1]. now intros [].
  - intros _. rewrite !stream_after_cons. cbn [stream_step].
    rewrite stream_after_app.
    rewrite (quiet_stream_after n1 Q1). now apply S2.
  - cbn. apply points_rendered_app; [|exact P2].
    apply no_read_points_rendered.
    eapply Forall_impl; [|exact Q1]. now intros [].
Qed.

End LoopLogs.

(** ** Arithmetic of the display offset *)

Lemma py_int_half (a : Z) : py_int (inject_Z a / 2 - 8)%Q = Z.quot (a - 16) 2.
Proof. unfold py_int. cbn. f_equal. lia. Qed.

Lemma x_displace_quot (screen_width screen_height : Z) :
  x_displace screen_width screen_height
  = Z.quot (screen_width - screen_height - 16) 2.
Proof.
  unfold x_displace, vertical_groesse, tracking_groesse. apply py_int_half.
Qed.

Lemma x_displace_even (screen_width screen_height : Z) :
  Z.even (screen_width - screen_height) = true ->
  x_displace screen_width screen_height
  = (screen_width - screen_height) / 2 - 8.
Proof.
  intros H. rewrite x_displace_quot.
  apply Z.even_spec in H. destruct H as [k Hk]. rewrite Hk.
  replace (2 * k - 16) with ((k - 8) * 2) by lia.
  rewrite Z.quot_mul by lia.
  replace (2 * k) with (k * 2) by lia.
  now rewrite Z.div_mul by lia.
Qed.

(** ** The claims *)

Section Claims.

Variable sc : script.
Variables (calibration_points screen_width screen_height distance_to_screen : Z).
Variables (pixel_size : Q) (dot_color : list Q) (dot_size : Q) (flipped : bool).

Local Abbreviation calibrate' :=
  (calibrate sc calibration_points screen_width screen_height
     distance_to_screen pixel_size dot_color dot_size flipped).

(** C1.  Whenever [calibrate] comes to an end (by returning, or by the
    exception of line 271), the gaze stream is not running: of the calls
    written to the log during the execution, every [eye_start_stream] is
    followed by an [eye_stop_stream].  This holds in particular when no
    calibration dot was ever drawn, that is, when the user aborted before
    any point was shown; and when the very first key poll finds an abort
    key, no stream or calibration was started at all. *)
Theorem calibrate_leaves_no_stream_open (fuel : nat) (w w' : world)
  (c : completion) :
  calibrate' fuel w = Ret c w' ->
  exists new,
    log w' = log w ++ new /\
    stream_open new = false /\
    (forall pre par post,
        new = pre ++ EyeStartStream par :: post -> In EyeStopStream post) /\
    (count is_point_read new = 0%nat -> stream_open new = false) /\
    (abort_pressed sc (n_keys w) = true -> start_calls new = []).
Proof.
  intros H.
  destruct (calibrate_log sc calibration_points screen_width screen_height
              distance_to_screen pixel_size dot_color dot_size flipped fuel w)
    as (new & L & _ & S & _).
  rewrite H in L, S. cbn [world_of is_ret] in L, S.
  specialize (S eq_refl). exists new. repeat split; auto.
  - now apply stream_closed_matched with (b := false).
  - intros Ha. revert H. unfold calibrate. run_calls.
    destruct (negb (_ =? -1)%Z); run_calls.
    2:{ intros [= _ <-]. cbn [log] in L. revert L. flat_log.
        now intros <-%app_inv_head. }
    destruct (negb (_ =? 2)%Z); run_calls.
    2:{ intros [= _ <-]. cbn [log] in L. revert L. flat_log.
        now intros <-%app_inv_head. }
    destruct fuel as [|fuel]; cbn [intro_loop main_loop negb]; run_calls;
      [discriminate|].
    unfold abort_pressed in Ha. rewrite Ha. run_calls.
    intros [= _ <-]. cbn [log] in L. revert L. flat_log.
    now intros <-%app_inv_head.
Qed.

(** C2.  When the first status poll answers -1, [calibrate] returns at
    once, whatever the fuel: the only things it does are that poll and the
    error line of line 330 (the report of the device not being ready).  No
    stimulus is drawn, no frame flipped, no key polled, and the device gets
    no display configuration, stream or calibration call. *)
Theorem calibrate_not_connected (fuel : nat) (w : world) :
  status_at sc (n_status w) = -1 ->
  exists new,
    calibrate' fuel w
    = Ret Returned (mkWorld (S (n_status w)) (n_keys w) (n_points w)
                      (log w ++ new)) /\
    new = [EyeGetStatus (-1); PyPrint [PyStr "error. Eyetracker not connected?"]] /\
    presentation_calls new = [] /\
    device_controls new = [] /\
    start_calls new = [].
Proof.
  intros H. eexists. split; [|repeat split].
  unfold calibrate. run_calls. rewrite H, Z.eqb_refl. cbn [negb].
  run_calls. flat_log. reflexivity.
Qed.

(** C8.  When the device is connected (the first status poll is not -1),
    the first two calls [calibrate] makes after that poll are
    [eye_set_display_parameter(height, height, distance, pixel_size)] and
    [eye_set_display_offset(int((width - height)/2 - 8), -30)]; no stream
    or calibration start call comes before them.  The horizontal offset
    [int((width - height)/2 - 8)] is the quotient of [width - height - 16]
    by 2 rounded towards zero, which is [(width - height)/2 - 8] whenever
    [width - height] is even. *)
Theorem calibrate_display_geometry (fuel : nat) (w : world) :
  status_at sc (n_status w) <> -1 ->
  (exists rest,
     log (world_of (calibrate' fuel w))
     = log w ++ EyeGetStatus (status_at sc (n_status w))
             :: EyeSetDisplayParameter screen_height screen_height
                  distance_to_screen pixel_size
             :: EyeSetDisplayOffset (x_displace screen_width screen_height)
                  (-30)
             :: rest) /\
  x_displace screen_width screen_height
  = py_int (inject_Z (screen_width - screen_height) / 2 - 8)%Q /\
  x_displace screen_width screen_height
  = Z.quot (screen_width - screen_height - 16) 2 /\
  (Z.even (screen_width - screen_height) = true ->
   x_displace screen_width screen_height
   = (screen_width - screen_height) / 2 - 8).
Proof.
  intros H.
  split; [|split; [reflexivity|split;
                   [apply x_displace_quot|apply x_displace_even]]].
  destruct (calibrate_log sc calibration_points screen_width screen_height
              distance_to_screen pixel_size dot_color dot_size flipped fuel w)
    as (new & L & _ & _ & P & _).
  destruct (P H) as (rest & ->). exists rest. exact L.
Qed.

End Claims.

Lemma calibrate_leaves_no_stream_open_witness :
  (exists new,
     log (world_of (calibrate_default full_session 10 world0))
     = log world0 ++ new /\
     stream_open new = false /\
     (forall pre par post,
         new = pre ++ EyeStartStream par :: post -> In EyeStopStream post)) /\
  (exists new,
     log (world_of (calibrate_default abort_at_intro 1 world0))
     = log world0 ++ new /\
     start_calls new = []).
Proof.
  split.
  - destruct (calibrate_leaves_no_stream_open full_session 9 1920 1080 130
                (333 # 1000) [1%Q; 1%Q; 1%Q] 20%Q true 10 world0
                (world_of (calibrate_default full_session 10 world0))
                Returned ltac:(vm_compute; reflexivity))
      as (new & L & S & P & _).
    exists new. auto.
  - destruct (calibrate_leaves_no_stream_open abort_at_intro 9 1920 1080 130
                (333 # 1000) [1%Q; 1%Q; 1%Q] 20%Q true 1 world0
                (world_of (calibrate_default abort_at_intro 1 world0))
                Returned ltac:(vm_compute; reflexivity))
      as (new & L & _ & _ & _ & A).
    exists new. split; [exact L|exact (A eq_refl)].
Defined.

Lemma calibrate_not_connected_witness :
  exists new,
    calibrate_default not_connected 0 world0
    = Ret Returned (mkWorld 1 0 0 (log world0 ++ new)) /\
    new = [EyeGetStatus (-1); PyPrint [PyStr "error. Eyetracker not connected?"]] /\
    presentation_calls new = [] /\
    device_controls new = [] /\
    start_calls new = [].
Proof.
  apply (calibrate_not_connected not_connected 9 1920 1080 130
           (333 # 1000) [1%Q; 1%Q; 1%Q] 20%Q true 0 world0).
  reflexivity.
Defined.

Lemma calibrate_display_geometry_witness :
  (exists rest,
     log (world_of (calibrate_default full_session 10 world0))
     = log world0 ++ EyeGetStatus 0
             :: EyeSetDisplayParameter 1080 1080 130 (333 # 1000)
             :: EyeSetDisplayOffset (x_displace 1920 1080) (-30)
             :: rest) /\
  x_displace 1920 1080 = py_int (inject_Z (1920 - 1080) / 2 - 8)%Q /\
  x_displace 1920 1080 = Z.quot (1920 - 1080 - 16) 2 /\
  (Z.even (1920 - 1080) = true -> x_displace 1920 1080 = (1920 - 1080) / 2 - 8).
Proof.
  apply (calibrate_display_geometry full_session 9 1920 1080 130
           (333 # 1000) [1%Q; 1%Q; 1%Q] 20%Q true 10 world0).
  vm_compute. discriminate.
Defined.

(** ** Key polls *)

Lemma truthy_filter {A} (f : A -> bool) (l : list A) :
  truthy (filter f l) = existsb f l.
Proof.
  induction l as [|a l IH]; cbn; [reflexivity|]. now destruct (f a).
Qed.

Lemma pressed_in (keyList : list string) (k : string) (l : list string) :
  In k l -> in_keyList keyList k = true ->
  truthy (filter (in_keyList keyList) l) = true.
Proof.
  intros H1 H2. rewrite truthy_filter. apply existsb_exists. eauto.
Qed.

(** An abort key also ends the repeat prompt, whose poll lists it. *)
Lemma abort_ends_prompt (sc : script) (n : nat) :
  abort_pressed sc n = true -> prompt_end_pressed sc n = true.
Proof.
  unfold abort_pressed, prompt_end_pressed. rewrite !truthy_filter.
  intros H. apply existsb_exists in H. destruct H as (k & Hk & H).
  apply existsb_exists. exists k. split; [exact Hk|].
  unfold in_keyList in *. cbn [existsb] in *.
  destruct (k =? "q")%string; [reflexivity|].
  destruct (k =? "escape")%string; [reflexivity|discriminate].
Qed.

Section Prompts.

Variable sc : script.
Variables (calibration_points screen_height : Z).
Variables (dot_color : list Q) (dot_size : Q) (flipped : bool).

(** C3, as the code has it.  An abort key ([q] or [escape]) found by the
    cancel poll of a frame ends whichever loop is polling and clears the
    [calibration] flag, so that the main loop is over.  In the calibration
    round and at the repeat prompt [eye_stop_calibration] and then
    [eye_stop_stream] are called first; at the intro prompt, where nothing
    has been started, no device call is made.  After an abort in the
    calibration round, [calibrate] is left as soon as the status poll that
    follows does not read 2. *)
Theorem abort_key_ends_calibration (fuel : nat) (c r : bool) (w : world) :
  abort_pressed sc (n_keys w) = true ->
  intro_loop sc flipped (S fuel) c true w
  = Ret (false, false)
      (mkWorld (n_status w) (S (S (n_keys w))) (n_points w)
         (log w ++
          [KbGetKeys ["q"; "escape"]
             (filter (in_keyList ["q"; "escape"]) (keys_at sc (n_keys w)));
           KbGetKeys ["space"]
             (filter (in_keyList ["space"]) (keys_at sc (S (n_keys w))))])) /\
  collect_loop sc screen_height dot_color dot_size (S fuel) c true w
  = Ret (false, true)
      (mkWorld (n_status w) (S (n_keys w)) (n_points w)
         (log w ++
          [KbGetKeys ["q"; "escape"]
             (filter (in_keyList ["q"; "escape"]) (keys_at sc (n_keys w)));
           PyPrint [PyStr "Calibration aborted"];
           EyeStopCalibration; EyeStopStream])) /\
  repeat_loop sc flipped (S fuel) c true false w
  = Ret (false, false, false)
      (mkWorld (n_status w) (S (S (n_keys w))) (n_points w)
         (log w ++
          [KbGetKeys ["q"; "escape"; "space"]
             (filter (in_keyList ["q"; "escape"; "space"])
                (keys_at sc (n_keys w)));
           KbGetKeys ["5"]
             (filter (in_keyList ["5"]) (keys_at sc (S (n_keys w))));
           EyeStopCalibration; EyeStopStream])) /\
  (forall w1,
      main_loop sc calibration_points screen_height dot_color dot_size
        flipped fuel false r w1 = Ret tt w1) /\
  (forall w1,
      status_at sc (n_status w1) <> 2 ->
      per_point_check sc flipped fuel false r w1
      = Ret (false, r)
          (mkWorld (S (n_status w1)) (n_keys w1) (n_points w1)
             (log w1 ++ [EyeGetStatus (status_at sc (n_status w1))]))).
Proof.
  intros H. pose proof (abort_ends_prompt sc _ H) as H'.
  unfold abort_pressed in H. unfold prompt_end_pressed in H'.
  repeat split.
  - cbn [intro_loop negb]. run_calls. rewrite H. run_calls.
    flat_log. reflexivity.
  - cbn [collect_loop negb]. run_calls. rewrite H. run_calls.
    flat_log. reflexivity.
  - cbn [repeat_loop negb andb]. run_calls. rewrite H'. run_calls.
    flat_log. reflexivity.
  - intros w1. now destruct fuel.
  - intros w1 E. unfold per_point_check. run_calls.
    apply Z.eqb_neq in E. rewrite E. reflexivity.
Qed.

End Prompts.

(** C9.  At the repeat prompt the space bar and an abort key take the same
    path: whether the cancel poll finds [space] (first script) or [q] or
    [escape] (second script), the prompt ends in the same frame with the
    same flags, after [eye_stop_calibration] and then [eye_stop_stream],
    with nothing drawn; and the main loop, entered with these flags,
    returns at once.  Nothing records which key it was. *)
Theorem prompt_space_same_as_abort (sc1 sc2 : script)
  (calibration_points screen_height : Z) (dot_color : list Q) (dot_size : Q)
  (flipped : bool) (fuel : nat) (c : bool) (w : world) :
  In "space" (keys_at sc1 (n_keys w)) ->
  In "q" (keys_at sc2 (n_keys w)) \/ In "escape" (keys_at sc2 (n_keys w)) ->
  exists new1 new2,
    repeat_loop sc1 flipped (S fuel) c true false w
    = Ret (false, false, false)
        (mkWorld (n_status w) (S (S (n_keys w))) (n_points w) (log w ++ new1)) /\
    repeat_loop sc2 flipped (S fuel) c true false w
    = Ret (false, false, false)
        (mkWorld (n_status w) (S (S (n_keys w))) (n_points w) (log w ++ new2)) /\
    device_calls new1 = [EyeStopCalibration; EyeStopStream] /\
    device_calls new2 = device_calls new1 /\
    presentation_calls new1 = [] /\
    presentation_calls new2 = [] /\
    (forall sc w1,
        main_loop sc calibration_points screen_height dot_color dot_size
          flipped fuel false false w1 = Ret tt w1).
Proof.
  intros H1 H2.
  assert (E1 : prompt_end_pressed sc1 (n_keys w) = true)
    by (eapply pressed_in; [exact H1|reflexivity]).
  assert (E2 : prompt_end_pressed sc2 (n_keys w) = true)
    by (destruct H2 as [H2|H2]; (eapply pressed_in; [exact H2|reflexivity])).
  unfold prompt_end_pressed in E1, E2.
  do 2 eexists. split; [|split].
  - cbn [repeat_loop negb andb]. run_calls. rewrite E1. run_calls.
    flat_log. reflexivity.
  - cbn [repeat_loop negb andb]. run_calls. rewrite E2. run_calls.
    flat_log. reflexivity.
  - repeat split. intros sc w1. now destruct fuel.
Qed.

(** C6, as the code has it.  On a device whose status reads 2 when
    [calibrate] is called, line 269 is skipped, [calibration_message] is
    never bound, and the [while] of line 271 raises [UnboundLocalError]
    after the display has been configured. *)
Theorem calibrate_on_calibrated_device_raises (fuel : nat) :
  calibrate_default already_calibrated fuel world0
  = Ret (Raised (UnboundLocalError "calibration_message"))
      (mkWorld 2 0 0
         [EyeGetStatus 2; EyeSetDisplayParameter 1080 1080 130 (333 # 1000);
          EyeSetDisplayOffset 412 (-30); PyPrint [PyInt 412; PyInt (-30)];
          EyeGetStatus 2; KbClearEvents]).
Proof. reflexivity. Qed.

(** ** The intro prompt *)

Lemma intro_loop_over (sc : script) (flipped : bool) (fuel : nat) (c : bool)
  (w : world) :
  intro_loop sc flipped fuel c false w = Ret (c, false) w.
Proof. now destruct fuel. Qed.

Lemma quiet_device_calls (l : list event) :
  Forall (fun e => is_device_call e = false) l -> device_calls l = [].
Proof.
  induction 1 as [|e l He _ IH]; cbn; [reflexivity|]. now rewrite He.
Qed.

Section IntroPrompt.

Variable sc : script.
Variable flipped : bool.
Variable c : bool.

Hypothesis no_abort : forall n, abort_pressed sc n = false.

Lemma intro_loop_exit (fuel : nat) :
  forall w x w',
    intro_loop sc flipped fuel c true w = Ret x w' ->
    x = (c, false) /\
    exists k,
      n_keys w' = (n_keys w + 2 * S k)%nat /\
      space_pressed sc (n_keys w + 2 * k + 1) = true /\
      forall i, (i < k)%nat -> space_pressed sc (n_keys w + 2 * i + 1) = false.
Proof.
  induction fuel as [|fuel IH]; intros w x w'; cbn [intro_loop negb];
    [discriminate|].
  run_calls. fold (abort_pressed sc (n_keys w)). rewrite no_abort.
  fold (space_pressed sc (S (n_keys w))).
  destruct (space_pressed sc (S (n_keys w))) eqn:E; run_calls.
  - rewrite intro_loop_over. intros [= <- <-]. split; [reflexivity|].
    exists 0%nat. cbn [n_keys].
    replace (n_keys w + 2 * 0 + 1)%nat with (S (n_keys w)) by lia.
    repeat split; [lia|exact E|lia].
  - intros H. apply IH in H. cbn [n_keys] in H.
    destruct H as (-> & k & Hn & Hs & Hi). split; [reflexivity|].
    exists (S k). repeat split.
    + lia.
    + replace (n_keys w + 2 * S k + 1)%nat
        with (S (S (n_keys w)) + 2 * k + 1)%nat by lia. exact Hs.
    + intros [|i] Hlt.
      * replace (n_keys w + 2 * 0 + 1)%nat with (S (n_keys w)) by lia.
        exact E.
      * replace (n_keys w + 2 * S i + 1)%nat
          with (S (S (n_keys w)) + 2 * i + 1)%nat by lia.
        apply Hi. lia.
Qed.

Lemma intro_loop_waits (k : nat) :
  forall w,
    (forall i, (i < k)%nat -> space_pressed sc (n_keys w + 2 * i + 1) = false) ->
    is_ret (intro_loop sc flipped k c true w) = false.
Proof.
  induction k as [|k IH]; intros w Hi; cbn [intro_loop negb]; [reflexivity|].
  run_calls. fold (abort_pressed sc (n_keys w)). rewrite no_abort.
  fold (space_pressed sc (S (n_keys w))).
  replace (space_pressed sc (S (n_keys w))) with false.
  2:{ symmetry. replace (S (n_keys w)) with (n_keys w + 2 * 0 + 1)%nat by lia.
      apply Hi. lia. }
  run_calls. apply IH. intros i Hlt. cbn [n_keys].
  replace (S (S (n_keys w)) + 2 * i + 1)%nat
    with (n_keys w + 2 * S i + 1)%nat by lia.
  apply Hi. lia.
Qed.

Lemma intro_loop_space (k fuel : nat) :
  forall w,
    (forall i, (i < k)%nat -> space_pressed sc (n_keys w + 2 * i + 1) = false) ->
    space_pressed sc (n_keys w + 2 * k + 1) = true ->
    is_ret (intro_loop sc flipped (S k + fuel) c true w) = true.
Proof.
  induction k as [|k IH]; intros w Hi Hs; cbn [intro_loop negb Nat.add];
    run_calls; fold (abort_pressed sc (n_keys w)); rewrite no_abort;
    fold (space_pressed sc (S (n_keys w))).
  - replace (n_keys w + 2 * 0 + 1)%nat with (S (n_keys w)) in Hs by lia.
    rewrite Hs. run_calls. now rewrite intro_loop_over.
  - replace (space_pressed sc (S (n_keys w))) with false.
    2:{ symmetry.
        replace (S (n_keys w)) with (n_keys w + 2 * 0 + 1)%nat by lia.
        apply Hi. lia. }
    run_calls. apply IH; cbn [n_keys].
    + intros i Hlt.
      replace (S (S (n_keys w)) + 2 * i + 1)%nat
        with (n_keys w + 2 * S i + 1)%nat by lia.
      apply Hi. lia.
    + replace (S (S (n_keys w)) + 2 * k + 1)%nat
        with (n_keys w + 2 * S k + 1)%nat by lia.
      exact Hs.
Qed.

End IntroPrompt.

(** C7.  While no key poll finds an abort key, the intro prompt is left
    only through the space bar: if the loop ends, it ends after a frame
    whose continue poll found [space], the first such frame, with
    [calibration] unchanged; as long as no continue poll finds [space] the
    loop keeps running, whatever else is pressed; a continue poll that
    finds [space] does end it.  The loop makes no device call at all, so no
    device condition can end it. *)
Theorem intro_prompt_exits_by_space (sc : script) (flipped c : bool) :
  (forall n, abort_pressed sc n = false) ->
  (forall fuel w x w',
      intro_loop sc flipped fuel c true w = Ret x w' ->
      x = (c, false) /\
      exists k,
        n_keys w' = (n_keys w + 2 * S k)%nat /\
        space_pressed sc (n_keys w + 2 * k + 1) = true /\
        forall i, (i < k)%nat ->
                  space_pressed sc (n_keys w + 2 * i + 1) = false) /\
  (forall k w,
      (forall i, (i < k)%nat ->
                 space_pressed sc (n_keys w + 2 * i + 1) = false) ->
      is_ret (intro_loop sc flipped k c true w) = false) /\
  (forall k fuel w,
      (forall i, (i < k)%nat ->
                 space_pressed sc (n_keys w + 2 * i + 1) = false) ->
      space_pressed sc (n_keys w + 2 * k + 1) = true ->
      is_ret (intro_loop sc flipped (S k + fuel) c true w) = true) /\
  (forall fuel m w,
      exists new,
        log (world_of (intro_loop sc flipped fuel c m w)) = log w ++ new /\
        device_calls new = []).
Proof.
  intros H. repeat split.
  - eapply intro_loop_exit; eauto.
  - eapply intro_loop_exit; eauto.
  - intros k w. now apply intro_loop_waits.
  - intros k fuel w. now apply intro_loop_space.
  - intros fuel m w.
    destruct (intro_loop_log sc flipped fuel c m w) as (new & L & Q).
    exists new. split; [exact L|now apply quiet_device_calls].
Qed.

(** ** A calibration round *)

Lemma not_truthy_nil {A} (l : list A) : truthy l = false -> l = [].
Proof. now destruct l. Qed.

Section Round.

Variable sc : script.
Variables (screen_height : Z) (dot_color : list Q) (dot_size : Q).
Variable flipped : bool.

Local Abbreviation frame :=
  (frame_log (dot_size / 2)%Q dot_color (dot_pos screen_height)).
Local Abbreviation last_frame :=
  (last_frame_log (dot_size / 2)%Q dot_color (dot_pos screen_height)).

(** A frame without abort key whose status poll does not answer 2. *)
Lemma collect_loop_frame (fuel : nat) (c : bool) (w : world) :
  abort_pressed sc (n_keys w) = false ->
  status_at sc (n_status w) <> 2 ->
  collect_loop sc screen_height dot_color dot_size (S fuel) c true w
  = collect_loop sc screen_height dot_color dot_size fuel c true
      (mkWorld (S (n_status w)) (S (n_keys w)) (S (n_points w))
         (log w ++ frame (status_at sc (n_status w))
                     (point_at sc (n_points w)))).
Proof.
  intros Ha Hs. cbn [collect_loop negb]. run_calls.
  unfold abort_pressed in Ha. rewrite Ha, (not_truthy_nil _ Ha). run_calls.
  apply Z.eqb_neq in Hs. rewrite Hs. run_calls. flat_log. reflexivity.
Qed.

(** A frame without abort key whose status poll answers 2. *)
Lemma collect_loop_last_frame (fuel : nat) (c : bool) (w : world) :
  abort_pressed sc (n_keys w) = false ->
  status_at sc (n_status w) = 2 ->
  collect_loop sc screen_height dot_color dot_size (S fuel) c true w
  = Ret (c, false)
      (mkWorld (S (n_status w)) (S (n_keys w)) (S (n_points w))
         (log w ++ last_frame (point_at sc (n_points w)))).
Proof.
  intros Ha Hs. cbn [collect_loop negb]. run_calls.
  unfold abort_pressed in Ha. rewrite Ha, (not_truthy_nil _ Ha). run_calls.
  rewrite Hs. cbn [Z.eqb]. rewrite Pos.eqb_refl. run_calls.
  destruct fuel; cbn [collect_loop negb]; run_calls; flat_log; reflexivity.
Qed.

(** C10, as the code has it.  In a calibration round whose per-frame
    status polls answer -1, 0, 0, 2, with no abort key down, the loop is
    still running after three frames and ends in the fourth;
    [eye_stop_calibration] and [eye_stop_stream] are each called once,
    right after the poll that answers 2.  The status is then polled once
    more (line 312): if this poll reads 2 the repeat prompt is entered,
    once for the round; if it does not, no prompt is entered and the main
    loop goes on with [calibration] unchanged. *)
Theorem round_ends_once_then_checks (fuel : nat) (c : bool) (w : world) :
  polls_are sc (n_status w) [-1; 0; 0; 2] = true ->
  no_abort_for sc (n_keys w) 4 = true ->
  let new :=
    frame (-1) (point_at sc (n_points w))
    ++ frame 0 (point_at sc (1 + n_points w))
    ++ frame 0 (point_at sc (2 + n_points w))
    ++ last_frame (point_at sc (3 + n_points w)) in
  let w4 :=
    mkWorld (4 + n_status w) (4 + n_keys w) (4 + n_points w) (log w ++ new) in
  is_ret (collect_loop sc screen_height dot_color dot_size 3 c true w) = false /\
  collect_loop sc screen_height dot_color dot_size (4 + fuel) c true w
  = Ret (c, false) w4 /\
  count is_stop_calibration new = 1%nat /\
  count is_stop_stream new = 1%nat /\
  (status_at sc (4 + n_status w) = 2 ->
   bind (collect_loop sc screen_height dot_color dot_size (4 + fuel) c true)
        (fun x => per_point_check sc flipped (4 + fuel) (fst x) false) w
   = bind (repeat_loop sc flipped (4 + fuel) c true false)
       (fun r => ret (fst (fst r), snd r))
       (mkWorld (5 + n_status w) (4 + n_keys w) (4 + n_points w)
          (log w ++ new ++ [EyeGetStatus 2; KbClearEvents]))) /\
  (status_at sc (4 + n_status w) <> 2 ->
   bind (collect_loop sc screen_height dot_color dot_size (4 + fuel) c true)
        (fun x => per_point_check sc flipped (4 + fuel) (fst x) false) w
   = Ret (c, false)
       (mkWorld (5 + n_status w) (4 + n_keys w) (4 + n_points w)
          (log w ++ new ++ [EyeGetStatus (status_at sc (4 + n_status w))]))).
Proof.
  intros Hp Ha new w4. cbn [polls_are no_abort_for] in Hp, Ha.
  repeat (apply andb_prop in Hp; destruct Hp as [?%Z.eqb_eq Hp]).
  repeat (apply andb_prop in Ha; destruct Ha as [?%negb_true_iff Ha]).
  assert (F3 : forall f,
             collect_loop sc screen_height dot_color dot_size (3 + f) c true w
             = collect_loop sc screen_height dot_color dot_size f c true
                 (mkWorld (3 + n_status w) (3 + n_keys w) (3 + n_points w)
                    (log w ++ frame (-1) (point_at sc (n_points w))
                           ++ frame 0 (point_at sc (1 + n_points w))
                           ++ frame 0 (point_at sc (2 + n_points w))))).
  { intros f. cbn [Nat.add].
    rewrite collect_loop_frame by (assumption || lia).
    rewrite collect_loop_frame by (cbn [n_keys n_status]; assumption || lia).
    rewrite collect_loop_frame by (cbn [n_keys n_status]; assumption || lia).
    cbn [n_keys n_status n_points log]. rewrite <- !app_assoc.
    repeat match goal with H : status_at _ _ = _ |- _ => rewrite H end.
    reflexivity. }
  assert (F4 : collect_loop sc screen_height dot_color dot_size (4 + fuel)
                 c true w = Ret (c, false) w4).
  { change (4 + fuel)%nat with (3 + S fuel)%nat. rewrite F3.
    rewrite collect_loop_last_frame by (cbn [n_keys n_status]; assumption).
    cbn [n_keys n_status n_points log]. subst w4 new.
    rewrite <- !app_assoc. reflexivity. }
  repeat split.
  - change 3%nat with (3 + 0)%nat. now rewrite F3.
  - exact F4.
  - intros Hchk. unfold bind at 1. rewrite F4. cbn [fst].
    unfold per_point_check. run_calls. subst w4. cbn [n_status].
    rewrite Hchk. cbn [Z.eqb]. rewrite Pos.eqb_refl. run_calls. flat_log.
    reflexivity.
  - intros Hchk. unfold bind at 1. rewrite F4. cbn [fst].
    unfold per_point_check. run_calls. subst w4. cbn [n_status].
    apply Z.eqb_neq in Hchk. rewrite Hchk. run_calls. flat_log.
    reflexivity.
Qed.

End Round.

(** ** Sample runs *)

Example full_session_run :
  is_ret (calibrate_default full_session 10 world0) = true /\
  device_controls (log (world_of (calibrate_default full_session 10 world0)))
  = [EyeSetDisplayParameter 1080 1080 130 (333 # 1000);
     EyeSetDisplayOffset 412 (-30);
     EyeStartStream 0; EyeStartCalibrate 9;
     EyeStopCalibration; EyeStopStream;
     EyeStopCalibration; EyeStopStream].
Proof. split; vm_compute; reflexivity. Qed.

(** Key 5 on a device that keeps reading 2: the next round starts the
    stream and the calibration again. *)
Example recalibrate_run :
  device_controls (log (world_of (calibrate_default recalibrate 4 world0)))
  = [EyeSetDisplayParameter 1080 1080 130 (333 # 1000);
     EyeSetDisplayOffset 412 (-30);
     EyeStartStream 0; EyeStartCalibrate 9;
     EyeStopCalibration; EyeStopStream].
Proof. vm_compute. reflexivity. Qed.

Example abort_at_first_frame_run :
  is_ret (calibrate_default abort_at_first_frame 4 world0) = true /\
  device_controls
    (log (world_of (calibrate_default abort_at_first_frame 4 world0)))
  = [EyeSetDisplayParameter 1080 1080 130 (333 # 1000);
     EyeSetDisplayOffset 412 (-30);
     EyeStartStream 0; EyeStartCalibrate 9;
     EyeStopCalibration; EyeStopStream] /\
  presentation_calls
    (log (world_of (calibrate_default abort_at_first_frame 4 world0)))
  = [TextDraw calibration_Text true; WinFlip].
Proof. repeat split; vm_compute; reflexivity. Qed.

(** After an abort in the round, line 312 still polls the status: if it
    reads 2 the repeat prompt is shown, and [calibrate] waits there for a
    key. *)
Example abort_then_calibrated_run :
  is_ret (calibrate_default abort_then_calibrated 3 world0) = false /\
  presentation_calls
    (log (world_of (calibrate_default abort_then_calibrated 3 world0)))
  = [TextDraw calibration_Text true; WinFlip;
     TextDraw repeat_Text true; WinFlip;
     TextDraw repeat_Text true; WinFlip].
Proof. split; vm_compute; reflexivity. Qed.

(** ** The claims on sample sessions *)

(** C3, as the spec has it, fails at the intro prompt: [q] there ends
    [calibrate] with neither [eye_stop_calibration] nor [eye_stop_stream]
    called. *)
Lemma abort_at_intro_calls_no_stop :
  abort_pressed abort_at_intro 0 = true /\
  exists w',
    calibrate_default abort_at_intro 1 world0 = Ret Returned w' /\
    count is_stop_calibration (log w') = 0%nat /\
    count is_stop_stream (log w') = 0%nat.
Proof.
  split; [reflexivity|]. eexists. split; [vm_compute; reflexivity|].
  split; reflexivity.
Qed.

Lemma abort_key_ends_calibration_witness :
  collect_loop prompt_q 1080 [1%Q; 1%Q; 1%Q] 20%Q 1 true true world0
  = Ret (false, true)
      (mkWorld 0 1 0
         [KbGetKeys ["q"; "escape"] ["q"]; PyPrint [PyStr "Calibration aborted"];
          EyeStopCalibration; EyeStopStream]).
Proof.
  exact (proj1 (proj2 (abort_key_ends_calibration prompt_q 9 1080
                         [1%Q; 1%Q; 1%Q] 20%Q true 0 true false world0
                         eq_refl))).
Defined.

Lemma intro_keys_no_abort (n : nat) : abort_pressed intro_keys n = false.
Proof. do 6 (destruct n as [|n]; [reflexivity|]). now destruct n. Qed.

Lemma intro_prompt_exits_by_space_witness :
  is_ret (intro_loop intro_keys true 2 true true world0) = false /\
  is_ret (intro_loop intro_keys true 3 true true world0) = true.
Proof.
  destruct (intro_prompt_exits_by_space intro_keys true true
              intro_keys_no_abort) as (_ & H2 & H3 & _).
  split.
  - apply (H2 2%nat world0). intros [|[|i]] Hi; [reflexivity|reflexivity|lia].
  - apply (H3 2%nat 0%nat world0); [|reflexivity].
    intros [|[|i]] Hi; [reflexivity|reflexivity|lia].
Defined.

Lemma prompt_space_same_as_abort_witness :
  exists new1 new2,
    repeat_loop prompt_space true 1 true true false world0
    = Ret (false, false, false) (mkWorld 0 2 0 (log world0 ++ new1)) /\
    repeat_loop prompt_q true 1 true true false world0
    = Ret (false, false, false) (mkWorld 0 2 0 (log world0 ++ new2)) /\
    device_calls new1 = [EyeStopCalibration; EyeStopStream] /\
    device_calls new2 = device_calls new1 /\
    presentation_calls new1 = [] /\
    presentation_calls new2 = [] /\
    (forall sc w1,
        main_loop sc 9 1080 [1%Q; 1%Q; 1%Q] 20%Q true 0 false false w1
        = Ret tt w1).
Proof.
  apply (prompt_space_same_as_abort prompt_space prompt_q 9 1080
           [1%Q; 1%Q; 1%Q] 20%Q true 0 true world0).
  - left. reflexivity.
  - left. left. reflexivity.
Defined.

Lemma round_ends_once_then_checks_witness :
  is_ret (collect_loop four_polls 1080 [1%Q; 1%Q; 1%Q] 20%Q 3 true true world0)
  = false /\
  (exists w4,
     collect_loop four_polls 1080 [1%Q; 1%Q; 1%Q] 20%Q 5 true true world0
     = Ret (true, false) w4 /\
     count is_stop_calibration (log w4) = 1%nat /\
     count is_stop_stream (log w4) = 1%nat) /\
  (exists w5,
     bind (collect_loop four_polls 1080 [1%Q; 1%Q; 1%Q] 20%Q 5 true true)
          (fun x => per_point_check four_polls true 5 (fst x) false) world0
     = Ret (false, false) w5 /\
     count is_prompt_poll (log w5) = 1%nat).
Proof.
  destruct (round_ends_once_then_checks four_polls 1080 [1%Q; 1%Q; 1%Q] 20%Q
              true 1 true world0 eq_refl eq_refl)
    as (H1 & H2 & H3 & H4 & H5 & _).
  split; [exact H1|]. split.
  - eexists. split; [exact H2|]. split; reflexivity.
  - pose proof (H5 eq_refl) as E. cbn [Nat.add] in E.
    eexists. rewrite E. split; reflexivity.
Defined.

(** C10, as the spec has it, fails when the check after the round reads
    another status: the frame polls of the first round answer -1, 0, 0, 2
    with no abort key down, yet the repeat prompt is never entered, and a
    second round starts the stream again. *)
Lemma round_without_prompt :
  polls_are four_polls_then_0 4 [-1; 0; 0; 2] = true /\
  no_abort_for four_polls_then_0 2 4 = true /\
  exists w',
    calibrate_default four_polls_then_0 10 world0 = Ret Returned w' /\
    count is_prompt_poll (log w') = 0%nat /\
    count is_start_stream (log w') = 2%nat.
Proof.
  split; [reflexivity|]. split; [reflexivity|].
  eexists. split; [vm_compute; reflexivity|]. split; reflexivity.
Qed.

(** ** The order of calls, loop by loop *)

Lemma chain_free (a : call_kind) (l : list event) :
  free_end a = true -> well_paired l = true -> chain a l = true.
Proof.
  destruct l as [|e l]; cbn; [easy|]. intros Ha [Hs Hc]%andb_prop.
  rewrite Hc, andb_true_r. unfold ok_pair.
  destruct a; try discriminate Ha; destruct (kind_of e);
    try discriminate Hs; reflexivity.
Qed.

Lemma chain_app (a : call_kind) (l1 l2 : list event) :
  chain a l1 = true -> well_paired l2 = true -> chain a (l1 ++ l2) = true.
Proof.
  revert a. induction l1 as [|e l1 IH]; intros a; cbn [app chain].
  - apply chain_free.
  - intros [-> H]%andb_prop H2. cbn. auto.
Qed.

Lemma well_paired_app (l1 l2 : list event) :
  well_paired l1 = true -> well_paired l2 = true ->
  well_paired (l1 ++ l2) = true.
Proof.
  destruct l1 as [|e l1]; cbn [app well_paired]; [easy|].
  intros [-> H]%andb_prop H2. cbn. now apply chain_app.
Qed.

Lemma chain_pair (k : call_kind) (pre : list event) (a b : event)
  (post : list event) :
  chain k (pre ++ a :: b :: post) = true ->
  ok_pair (kind_of a) (kind_of b) = true.
Proof.
  revert k. induction pre as [|e pre IH]; intros k; cbn [app chain].
  - now intros [_ [H _]%andb_prop]%andb_prop.
  - intros [_ H]%andb_prop. eauto.
Qed.

Lemma well_paired_pair (pre : list event) (a b : event) (post : list event) :
  well_paired (pre ++ a :: b :: post) = true ->
  ok_pair (kind_of a) (kind_of b) = true.
Proof.
  destruct pre as [|e pre]; cbn [app well_paired].
  - now intros [_ [H _]%andb_prop]%andb_prop.
  - intros [_ H]%andb_prop. eapply chain_pair; eauto.
Qed.

Lemma chain_last (k : call_kind) (pre : list event) (a : event) :
  chain k (pre ++ [a]) = true -> free_end (kind_of a) = true.
Proof.
  revert k. induction pre as [|e pre IH]; intros k; cbn [app chain].
  - now intros [_ H]%andb_prop.
  - intros [_ H]%andb_prop. eauto.
Qed.

Lemma well_paired_last (pre : list event) (a : event) :
  well_paired (pre ++ [a]) = true -> free_end (kind_of a) = true.
Proof.
  destruct pre as [|e pre]; cbn [app well_paired chain].
  - now intros [_ H]%andb_prop.
  - intros [_ H]%andb_prop. eapply chain_last; eauto.
Qed.

(** What comes right after a call in a well-paired log. *)
Lemma well_paired_next (pre : list event) (a : event) (post : list event) :
  well_paired (pre ++ a :: post) = true ->
  free_end (kind_of a) = false ->
  exists b post', post = b :: post' /\ ok_pair (kind_of a) (kind_of b) = true.
Proof.
  destruct post as [|b post']; intros H Ha.
  - apply well_paired_last in H. congruence.
  - exists b, post'. split; [reflexivity|]. eapply well_paired_pair; eauto.
Qed.

(** What comes right before a call in a well-paired log. *)
Lemma well_paired_prev (pre : list event) (b : event) (post : list event) :
  well_paired (pre ++ b :: post) = true ->
  free_start (kind_of b) = false ->
  exists pre' a, pre = pre' ++ [a] /\ ok_pair (kind_of a) (kind_of b) = true.
Proof.
  pattern pre. apply rev_ind; [|intros a pre' _]; intros H Hb.
  - cbn in H. apply andb_prop in H. destruct H. congruence.
  - exists pre', a. split; [reflexivity|].
    rewrite <- app_assoc in H. cbn [app] in H.
    eapply well_paired_pair; eauto.
Qed.

Lemma starts_when_closed_app (b : bool) (l1 l2 : list event) :
  starts_when_closed b (l1 ++ l2)
  = starts_when_closed b l1 && starts_when_closed (stream_after b l1) l2.
Proof.
  revert b. induction l1 as [|e l1 IH]; intros b; cbn [app]; [reflexivity|].
  rewrite stream_after_cons.
  destruct e; cbn [starts_when_closed stream_step]; rewrite ?IH;
    try reflexivity.
  now rewrite andb_assoc.
Qed.

Lemma no_start_starts_when_closed (l : list event) :
  Forall (fun e => is_start_call e = false) l ->
  forall b, starts_when_closed b l = true.
Proof.
  induction 1 as [|e l He _ IH]; intros b; cbn; [reflexivity|].
  destruct e; try discriminate He; apply IH.
Qed.

Lemma no_start_start_args (calibration_points : Z) (l : list event) :
  Forall (fun e => is_start_call e = false) l ->
  Forall (start_args calibration_points) l.
Proof.
  intros H. eapply Forall_impl; [|exact H].
  intros [] E; cbn; try exact I; discriminate E.
Qed.

Lemma no_device_no_start (l : list event) :
  Forall (fun e => is_device_call e = false) l ->
  Forall (fun e => is_start_call e = false) l.
Proof.
  intros H. eapply Forall_impl; [|exact H]. now intros [].
Qed.

Lemma no_device_no_config (l : list event) :
  Forall (fun e => is_device_call e = false) l ->
  Forall (fun e => is_config e = false) l.
Proof.
  intros H. eapply Forall_impl; [|exact H]. now intros [].
Qed.

Lemma count_app (f : event -> bool) (l1 l2 : list event) :
  count f (l1 ++ l2) = (count f l1 + count f l2)%nat.
Proof. unfold count. now rewrite filter_app, length_app. Qed.

Lemma count_none (f : event -> bool) (l : list event) :
  Forall (fun e => f e = false) l -> count f l = 0%nat.
Proof.
  unfold count. induction 1 as [|e l He _ IH]; cbn; [reflexivity|].
  now rewrite He.
Qed.

Ltac case_truthy E :=
  match goal with
  | |- context [if truthy ?l then _ else _] => destruct (truthy l) eqn:E
  end.

Ltac end_chain H :=
  cbn; try (apply chain_free; [reflexivity|exact H]).

Section LoopOrder.

Variable sc : script.
Variables (calibration_points screen_width screen_height distance_to_screen : Z).
Variables (pixel_size : Q) (dot_color : list Q) (dot_size : Q) (flipped : bool).

Lemma intro_loop_order (fuel : nat) :
  forall c m w, exists new,
    log (world_of (intro_loop sc flipped fuel c m w)) = log w ++ new /\
    well_paired new = true /\
    Forall (fun e => is_start_call e = false) new /\
    Forall (fun e => is_config e = false) new /\
    ret_prop (intro_loop sc flipped fuel c m w)
      (fun x => c = true -> fst x = false ->
                existsb is_cancel_hit new = true).
Proof.
  induction fuel as [|fuel IH]; intros c m w; cbn [intro_loop];
    destruct m; cbn [negb];
    try (exists []; split; [now rewrite app_nil_r|];
         split; [easy|split; [easy|split; [easy|]]]; cbn;
         first [exact I|congruence]).
  run_calls.
  case_truthy E; run_calls.
  - eexists. split; [flat_log; reflexivity|]. split; [reflexivity|].
    split; [now repeat constructor|]. split; [now repeat constructor|].
    cbn. now rewrite E.
  - case_truthy E2; run_calls;
      match goal with |- context [intro_loop _ _ _ ?c ?m ?w1] =>
        destruct (IH c m w1) as (new & L & Hp & Hs & Hg & Hc);
        destruct (intro_loop sc flipped fuel c m w1) end;
      cbn [world_of log ret_prop] in *; rewrite L; eexists;
      (split; [flat_log; reflexivity|]); (split; [end_chain Hp|]);
      (split; [now repeat constructor|]);
      (split; [now repeat constructor|]);
      try exact I; intros Hc1 Hc2; cbn; rewrite (Hc Hc1 Hc2);
      now rewrite ?orb_true_r.
Qed.

Lemma repeat_loop_order (fuel : nat) :
  forall c m r w, exists new,
    log (world_of (repeat_loop sc flipped fuel c m r w)) = log w ++ new /\
    well_paired new = true /\
    Forall (fun e => is_start_call e = false) new /\
    Forall (fun e => is_config e = false) new /\
    ret_prop (repeat_loop sc flipped fuel c m r w)
      (fun x => c = true -> fst (fst x) = false ->
                existsb is_cancel_hit new = true).
Proof.
  induction fuel as [|fuel IH]; intros c m r w; cbn [repeat_loop];
    destruct m, r; cbn [negb andb];
    try (exists []; split; [now rewrite app_nil_r|];
         split; [easy|split; [easy|split; [easy|]]]; cbn;
         first [exact I|congruence]).
  run_calls.
  case_truthy E; run_calls.
  - eexists. split; [flat_log; reflexivity|]. split; [reflexivity|].
    split; [now repeat constructor|]. split; [now repeat constructor|].
    cbn. now rewrite E.
  - case_truthy E2; run_calls;
      match goal with |- context [repeat_loop _ _ _ ?c ?m ?r ?w1] =>
        destruct (IH c m r w1) as (new & L & Hp & Hs & Hg & Hc);
        destruct (repeat_loop sc flipped fuel c m r w1) end;
      cbn [world_of log ret_prop] in *; rewrite L; eexists;
      (split; [flat_log; reflexivity|]); (split; [end_chain Hp|]);
      (split; [now repeat constructor|]);
      (split; [now repeat constructor|]);
      try exact I; intros Hc1 Hc2; cbn; rewrite (Hc Hc1 Hc2);
      now rewrite ?orb_true_r.
Qed.

Lemma collect_loop_order (fuel : nat) :
  forall c r w, exists new,
    log (world_of (collect_loop sc screen_height dot_color dot_size fuel c r w))
    = log w ++ new /\
    well_paired new = true /\
    Forall (fun e => is_start_call e = false) new /\
    Forall (fun e => is_config e = false) new /\
    ret_prop (collect_loop sc screen_height dot_color dot_size fuel c r w)
      (fun x => c = true -> fst x = false ->
                existsb is_cancel_hit new = true).
Proof.
  induction fuel as [|fuel IH]; intros c r w; cbn [collect_loop];
    destruct r; cbn [negb];
    try (exists []; split; [now rewrite app_nil_r|];
         split; [easy|split; [easy|split; [easy|]]]; cbn;
         first [exact I|congruence]).
  run_calls.
  case_truthy E; run_calls.
  - eexists. split; [flat_log; reflexivity|]. split; [reflexivity|].
    split; [now repeat constructor|]. split; [now repeat constructor|].
    cbn. now rewrite E.
  - destruct (_ =? 2)%Z; run_calls;
      match goal with |- context [collect_loop _ _ _ _ _ ?c ?r ?w1] =>
        destruct (IH c r w1) as (new & L & Hp & Hs & Hg & Hc);
        destruct (collect_loop sc screen_height dot_color dot_size
                    fuel c r w1) end;
      cbn [world_of log ret_prop] in *; rewrite L; eexists;
      (split; [flat_log; reflexivity|]); (split; [end_chain Hp|]);
      (split; [now repeat constructor|]);
      (split; [now repeat constructor|]);
      try exact I; intros Hc1 Hc2; cbn; rewrite (Hc Hc1 Hc2);
      now rewrite ?orb_true_r.
Qed.

Lemma collect_entry_order (r : bool) (w : world) :
  exists e w' new,
    collect_entry sc calibration_points r w = Ret e w' /\
    log w' = log w ++ new /\
    well_paired new = true /\
    Forall (start_args calibration_points) new /\
    starts_when_closed false new = true /\
    Forall (fun e => is_config e = false) new /\
    stream_after false new = fst e.
Proof.
  unfold collect_entry. run_calls.
  destruct (negb _ || r); run_calls;
    do 3 eexists; (split; [reflexivity|]); cbn [log fst];
    (split; [flat_log; reflexivity|]);
    repeat split; solve [now repeat constructor].
Qed.

Lemma per_point_check_order (fuel : nat) (c r : bool) (w : world) :
  exists new,
    log (world_of (per_point_check sc flipped fuel c r w)) = log w ++ new /\
    well_paired new = true /\
    Forall (fun e => is_start_call e = false) new /\
    Forall (fun e => is_config e = false) new /\
    ret_prop (per_point_check sc flipped fuel c r w)
      (fun x => c = true -> fst x = false ->
                existsb is_cancel_hit new = true).
Proof.
  unfold per_point_check. run_calls.
  destruct (_ =? 2)%Z; run_calls.
  - match goal with |- context [repeat_loop _ _ _ ?c ?m ?r ?w1] =>
      destruct (repeat_loop_order fuel c m r w1) as (new & L & Hp & Hs & Hg & Hc);
      destruct (repeat_loop sc flipped fuel c m r w1) end;
      cbn [world_of log ret_prop fst snd] in *; rewrite L; eexists;
      (split; [flat_log; reflexivity|]); (split; [end_chain Hp|]);
      (split; [now repeat constructor|]);
      (split; [now repeat constructor|]);
      try exact I; intros Hc1 Hc2; cbn; exact (Hc Hc1 Hc2).
  - eexists; (split; [flat_log; reflexivity|]); (split; [reflexivity|]).
    split; [now repeat constructor|]. split; [now repeat constructor|].
    cbn. congruence.
Qed.

Lemma main_loop_order (fuel : nat) :
  forall c r w, exists new,
    log (world_of (main_loop sc calibration_points screen_height dot_color
                     dot_size flipped fuel c r w)) = log w ++ new /\
    well_paired new = true /\
    Forall (start_args calibration_points) new /\
    starts_when_closed false new = true /\
    Forall (fun e => is_config e = false) new /\
    (is_ret (main_loop sc calibration_points screen_height dot_color
               dot_size flipped fuel c r w) = true ->
     c = true -> existsb is_cancel_hit new = true).
Proof.
  induction fuel as [|fuel IH]; intros c r w; cbn [main_loop];
    destruct c; cbn [negb];
    try (exists []; split; [now rewrite app_nil_r|];
         repeat split; solve [easy|constructor]).
  unfold bind.
  destruct (collect_entry_order r w)
    as (e & w1 & n1 & -> & L1 & P1 & A1 & W1 & G1 & S1).
  destruct (collect_loop_order fuel true (fst e) w1)
    as (n2 & L2 & P2 & N2 & G2 & C2).
  destruct (collect_loop_log sc screen_height dot_color dot_size fuel
              true (fst e) w1) as (n2' & L2' & _ & S2).
  assert (n2' = n2) as -> by (rewrite L2 in L2'; now apply app_inv_head in L2').
  destruct (collect_loop _ _ _ _ _ _ _ w1) as [x w2|w2];
    cbn [world_of is_ret ret_prop] in *.
  2:{ exists (n1 ++ n2). rewrite L2, L1, app_assoc. split; [reflexivity|].
      split; [now apply well_paired_app|].
      split; [apply Forall_app; split; auto using no_start_start_args|].
      split; [|split; [apply Forall_app; split; auto|easy]].
      rewrite starts_when_closed_app, W1.
      now apply no_start_starts_when_closed. }
  destruct (per_point_check_order fuel (fst x) (snd e) w2)
    as (n3 & L3 & P3 & N3 & G3 & C3).
  destruct (per_point_check _ _ _ _ _ w2) as [k w3|w3];
    cbn [world_of is_ret ret_prop] in *.
  2:{ exists (n1 ++ n2 ++ n3). rewrite L3, L2, L1, <- !app_assoc.
      split; [reflexivity|].
      split; [auto using well_paired_app|].
      split; [repeat (apply Forall_app; split);
              auto using no_start_start_args|].
      split; [|split; [repeat (apply Forall_app; split); auto|easy]].
      rewrite !starts_when_closed_app, W1.
      now rewrite !no_start_starts_when_closed. }
  destruct (IH (fst k) (snd k) w3) as (n4 & L4 & P4 & A4 & W4 & G4 & C4).
  exists (n1 ++ n2 ++ n3 ++ n4). rewrite L4, L3, L2, L1, <- !app_assoc.
  split; [reflexivity|].
  split; [auto using well_paired_app|].
  split; [repeat (apply Forall_app; split); auto using no_start_start_args|].
  split; [|split; [repeat (apply Forall_app; split); auto|]].
  - rewrite !starts_when_closed_app, W1.
    rewrite !no_start_starts_when_closed by assumption.
    rewrite S1, (S2 eq_refl).
    replace (if fst e then false else fst e) with false by now destruct (fst e).
    now rewrite (no_start_stream_after n3 N3), W4.
  - intros Hr _. rewrite !existsb_app.
    destruct (fst x) eqn:Ex; [|now rewrite (C2 eq_refl eq_refl), orb_true_r].
    destruct (fst k) eqn:Ek;
      [|now rewrite (C3 eq_refl eq_refl), !orb_true_r].
    now rewrite (C4 Hr eq_refl), !orb_true_r.
Qed.

End LoopOrder.

Section RoutineOrder.

Variable sc : script.
Variables (calibration_points screen_width screen_height distance_to_screen : Z).
Variables (pixel_size : Q) (dot_color : list Q) (dot_size : Q) (flipped : bool).

Local Abbreviation calibrate' :=
  (calibrate sc calibration_points screen_width screen_height
     distance_to_screen pixel_size dot_color dot_size flipped).

Lemma calibrate_order (fuel : nat) (w : world) :
  exists new,
    log (world_of (calibrate' fuel w)) = log w ++ new /\
    well_paired new = true /\
    Forall (start_args calibration_points) new /\
    starts_when_closed false new = true /\
    count is_config new
    = (if (status_at sc (n_status w) =? -1)%Z then 0 else 2)%nat /\
    ret_prop (calibrate' fuel w)
      (fun c => c = Returned -> status_at sc (n_status w) <> -1 ->
                existsb is_cancel_hit new = true).
Proof.
  unfold calibrate. run_calls.
  destruct (Z.eqb_spec (status_at sc (n_status w)) (-1)) as [E|E];
    cbn [negb]; run_calls.
  { eexists. split; [flat_log; reflexivity|].
    repeat split; try easy. now repeat constructor. }
  destruct (negb (_ =? 2)%Z); run_calls.
  2:{ eexists. split; [flat_log; reflexivity|].
      repeat split; try easy. now repeat constructor. }
  match goal with |- context [intro_loop _ _ _ ?c ?m ?w1] =>
    destruct (intro_loop_order sc flipped fuel c m w1)
      as (n1 & L1 & P1 & N1 & G1 & C1);
    destruct (intro_loop sc flipped fuel c m w1) as [i w2|w2] end;
    cbn [world_of is_ret ret_prop log] in *.
  2:{ rewrite L1. eexists. split; [flat_log; reflexivity|].
      split; [cbn; now apply chain_free|].
      split; [repeat (constructor; [exact I|]);
              now apply no_start_start_args|].
      split; [cbn; now apply no_start_starts_when_closed|].
      split; [|exact I].
      change (count is_config ?l) with (2 + count is_config n1)%nat.
      now rewrite (count_none _ _ G1). }
  destruct (main_loop_order sc calibration_points screen_height dot_color
              dot_size flipped fuel (fst i) false w2)
    as (n2 & L2 & P2 & A2 & W2 & G2 & C2).
  destruct (main_loop _ _ _ _ _ _ _ _ _ w2) as [u w3|w3];
    cbn [world_of is_ret ret_prop log] in *; rewrite L2, L1;
    eexists; (split; [flat_log; reflexivity|]);
    (split; [cbn; apply chain_app;
             [now apply chain_free|exact P2]|]);
    (split; [repeat (constructor; [exact I|]); apply Forall_app; split;
             auto using no_start_start_args|]);
    (split; [cbn [starts_when_closed]; rewrite starts_when_closed_app;
             rewrite (no_start_starts_when_closed n1 N1);
             rewrite (no_start_stream_after n1 N1); exact W2|]);
    (split; [change (count is_config ?l)
               with (2 + count is_config (n1 ++ n2))%nat;
             now rewrite count_app, !count_none|]);
    try exact I.
  intros _ _.
  change (existsb is_cancel_hit ?l) with (existsb is_cancel_hit (n1 ++ n2)).
  rewrite existsb_app.
  destruct (fst i) eqn:Ei; [now rewrite (C2 eq_refl eq_refl), orb_true_r|].
  now rewrite (C1 eq_refl eq_refl).
Qed.

(** X1.  Each [eye_start_stream] is called with parameter 0 and is
    followed at once by [eye_start_calibrate(calibration_points)]; there is
    no other [eye_start_calibrate].  [calibrate] never starts a stream on
    top of one it started itself: every earlier [eye_start_stream] of the
    same call has been followed by an [eye_stop_stream].  So, when no
    stream runs as [calibrate] is called, none runs when it calls
    [eye_start_stream]. *)
Theorem start_calls_come_in_pairs (fuel : nat) (w : world) :
  exists new,
    log (world_of (calibrate' fuel w)) = log w ++ new /\
    (forall pre p post,
        new = pre ++ EyeStartStream p :: post ->
        p = 0 /\
        (forall pre1 p1 mid,
            pre = pre1 ++ EyeStartStream p1 :: mid -> In EyeStopStream mid) /\
        (stream_open (log w) = false -> stream_open (log w ++ pre) = false) /\
        exists post', post = EyeStartCalibrate calibration_points :: post') /\
    (forall pre n post,
        new = pre ++ EyeStartCalibrate n :: post ->
        n = calibration_points /\
        exists pre', pre = pre' ++ [EyeStartStream 0]).
Proof.
  destruct (calibrate_order fuel w) as (new & L & P & A & W & _).
  exists new. split; [exact L|]. split.
  - intros pre p post ->.
    pose proof A as A0. rewrite Forall_app in A0. destruct A0 as [_ A0].
    inversion A0 as [|? ? Hp A1]; subst. cbn in Hp. split; [exact Hp|].
    assert (C : stream_open pre = false).
    { rewrite starts_when_closed_app in W. apply andb_prop in W.
      destruct W as [_ W]. cbn in W. apply andb_prop in W.
      destruct W as [W _]. now apply negb_true_iff in W. }
    split; [now apply stream_closed_matched with (b := false)|].
    split.
    { intros C0. unfold stream_open in *. now rewrite stream_after_app, C0. }
    destruct (well_paired_next _ _ _ P eq_refl) as (b & post' & -> & Hb).
    exists post'. f_equal.
    inversion A1 as [|? ? Hn _]; subst.
    destruct b; try discriminate Hb. cbn in Hn. now subst.
  - intros pre n post ->.
    pose proof A as A0. rewrite Forall_app in A0. destruct A0 as [A0 A1].
    inversion A1 as [|? ? Hn _]; subst. cbn in Hn. split; [exact Hn|].
    destruct (well_paired_prev _ _ _ P eq_refl) as (pre' & a & -> & Ha).
    exists pre'. do 2 f_equal.
    rewrite Forall_app in A0. destruct A0 as [_ A0].
    inversion A0 as [|? ? Hp _]; subst.
    destruct a; try discriminate Ha. cbn in Hp. now subst.
Qed.

(** X2.  Each [eye_stop_calibration] is followed at once by
    [eye_stop_stream], and there is no other [eye_stop_stream]. *)
Theorem stop_calls_come_in_pairs (fuel : nat) (w : world) :
  exists new,
    log (world_of (calibrate' fuel w)) = log w ++ new /\
    (forall pre post,
        new = pre ++ EyeStopCalibration :: post ->
        exists post', post = EyeStopStream :: post') /\
    (forall pre post,
        new = pre ++ EyeStopStream :: post ->
        exists pre', pre = pre' ++ [EyeStopCalibration]).
Proof.
  destruct (calibrate_order fuel w) as (new & L & P & _).
  exists new. split; [exact L|]. split.
  - intros pre post ->.
    destruct (well_paired_next _ _ _ P eq_refl) as (b & post' & -> & Hb).
    exists post'. destruct b; try discriminate Hb. reflexivity.
  - intros pre post ->.
    destruct (well_paired_prev _ _ _ P eq_refl) as (pre' & a & -> & Ha).
    exists pre'. destruct a; try discriminate Ha. reflexivity.
Qed.

(** X3.  Each stimulus drawn (a prompt text or a dot) is followed at once
    by [win.flip()], and the window is flipped at no other time: every
    frame shows exactly one stimulus. *)
Theorem one_stimulus_per_frame (fuel : nat) (w : world) :
  exists new,
    log (world_of (calibrate' fuel w)) = log w ++ new /\
    (forall pre e post,
        new = pre ++ e :: post ->
        is_presentation_call e = true -> e <> WinFlip ->
        exists post', post = WinFlip :: post') /\
    (forall pre post,
        new = pre ++ WinFlip :: post ->
        exists pre' e, pre = pre' ++ [e] /\
                       is_presentation_call e = true /\ e <> WinFlip).
Proof.
  destruct (calibrate_order fuel w) as (new & L & P & _).
  exists new. split; [exact L|]. split.
  - intros pre e post -> He Hf.
    assert (Hk : free_end (kind_of e) = false)
      by (destruct e; try discriminate He; try reflexivity; congruence).
    destruct (well_paired_next _ _ _ P Hk) as (b & post' & -> & Hb).
    exists post'. f_equal.
    destruct e; try discriminate He; try congruence;
      destruct b; try discriminate Hb; reflexivity.
  - intros pre post ->.
    destruct (well_paired_prev _ _ _ P eq_refl) as (pre' & a & -> & Ha).
    exists pre', a. split; [reflexivity|].
    destruct a; try discriminate Ha; split; (reflexivity || discriminate).
Qed.

(** X4.  When the device is connected the display is configured once for
    the whole call, before anything else: the two configuration calls
    follow the first status poll and are never repeated, however many
    rounds the calibration takes. *)
Theorem display_configured_once (fuel : nat) (w : world) :
  status_at sc (n_status w) <> -1 ->
  exists rest,
    log (world_of (calibrate' fuel w))
    = log w ++ EyeGetStatus (status_at sc (n_status w))
            :: EyeSetDisplayParameter screen_height screen_height
                 distance_to_screen pixel_size
            :: EyeSetDisplayOffset (x_displace screen_width screen_height)
                 (-30)
            :: rest /\
    count is_config rest = 0%nat.
Proof.
  intros H.
  destruct (calibrate_order fuel w) as (new & L & _ & _ & _ & G & _).
  destruct (calibrate_log sc calibration_points screen_width screen_height
              distance_to_screen pixel_size dot_color dot_size flipped fuel w)
    as (new' & L' & _ & _ & P & _).
  destruct (P H) as (rest & ->). exists rest. split; [exact L'|].
  rewrite L in L'. apply app_inv_head in L'. subst new.
  apply Z.eqb_neq in H. rewrite H in G.
  change (count is_config (_ :: _ :: _ :: rest))
    with (2 + count is_config rest)%nat in G.
  lia.
Qed.

(** X5.  A connected call that returns does so only after a poll for the
    abort keys (the poll of the intro prompt or of a round, or the one of
    the repeat prompt, which lists [space] as well) has found a key: the
    routine never ends on its own. *)
Theorem returns_only_on_key (fuel : nat) (w w' : world) :
  status_at sc (n_status w) <> -1 ->
  calibrate' fuel w = Ret Returned w' ->
  exists pre keyList pressed post,
    log w' = log w ++ pre ++ KbGetKeys keyList pressed :: post /\
    In "q" keyList /\ pressed <> [].
Proof.
  intros H R.
  destruct (calibrate_order fuel w) as (new & L & _ & _ & _ & _ & C).
  rewrite R in L, C. cbn [world_of ret_prop] in L, C.
  specialize (C eq_refl H). apply existsb_exists in C.
  destruct C as (e & He & Hc). apply in_split in He.
  destruct He as (pre & post & ->).
  destruct e; try discriminate Hc. cbn in Hc.
  apply andb_prop in Hc. destruct Hc as [Hq Hp].
  exists pre, keyList, pressed, post. split; [exact L|]. split.
  - unfold in_keyList in Hq. apply existsb_exists in Hq.
    destruct Hq as (k & Hk & Hq). apply String.eqb_eq in Hq. now subst.
  - now destruct pressed.
Qed.

(** X6.  [calibrate] ends with an exception exactly when the device is
    connected (first status poll not -1) and the second status poll reads
    2; the exception is then the [UnboundLocalError] of
    [calibration_message], whatever the fuel. *)
Theorem raises_iff_second_poll_reads_2 (fuel : nat) (w w' : world) (e : exn) :
  calibrate' fuel w = Ret (Raised e) w' <->
  status_at sc (n_status w) <> -1 /\
  status_at sc (S (n_status w)) = 2 /\
  e = UnboundLocalError "calibration_message" /\
  w' = mkWorld (S (S (n_status w))) (n_keys w) (n_points w)
         (log w ++
          [EyeGetStatus (status_at sc (n_status w));
           EyeSetDisplayParameter screen_height screen_height
             distance_to_screen pixel_size;
           EyeSetDisplayOffset (x_displace screen_width screen_height) (-30);
           PyPrint [PyInt (x_displace screen_width screen_height);
                    PyInt (-30)];
           EyeGetStatus 2; KbClearEvents]).
Proof.
  unfold calibrate. run_calls.
  destruct (Z.eqb_spec (status_at sc (n_status w)) (-1)) as [E|E];
    cbn [negb]; run_calls.
  { split; [discriminate|]. now intros [H _]. }
  destruct (Z.eqb_spec (status_at sc (S (n_status w))) 2) as [E2|E2];
    cbn [negb]; run_calls.
  - rewrite E2. split.
    + intros [= <- <-]. repeat split; auto. flat_log. reflexivity.
    + intros (_ & _ & -> & ->). flat_log. reflexivity.
  - split; [|now intros (_ & H & _)].
    destruct (intro_loop _ _ _ _ _ _); [|discriminate].
    destruct (main_loop _ _ _ _ _ _ _ _ _ _); discriminate.
Qed.

End RoutineOrder.

(** ** Loops that wait *)

Section Waiting.

Variable sc : script.
Variables (calibration_points screen_height : Z).
Variables (dot_color : list Q) (dot_size : Q) (flipped : bool).

Lemma round_frames_counts (radius : Q) (color : list Q)
  (pos : point -> Q * Q) (k : nat) :
  forall n_s n_p,
    count is_circle_draw (round_frames radius color pos sc n_s n_p k) = k /\
    count is_flip (round_frames radius color pos sc n_s n_p k) = k /\
    count is_point_read (round_frames radius color pos sc n_s n_p k) = k /\
    count is_stop_stream (round_frames radius color pos sc n_s n_p k)
    = 0%nat /\
    count is_stop_calibration (round_frames radius color pos sc n_s n_p k)
    = 0%nat.
Proof.
  induction k as [|k IH]; intros n_s n_p; cbn [round_frames];
    [now repeat split|].
  destruct (IH (S n_s) (S n_p)) as (H1 & H2 & H3 & H4 & H5).
  rewrite !count_app, H1, H2, H3, H4, H5. now repeat split.
Qed.

(** X7.  A calibration round has no timeout: on a device that never
    reports status 2, and with no abort key pressed, the round does not
    end, however long it runs.  Frame after frame it polls the keys and
    the status, reads the calibration point, draws its dot and flips the
    window, and it never calls [eye_stop_calibration] or
    [eye_stop_stream]. *)
Theorem round_has_no_timeout (fuel : nat) (c : bool) (w : world) :
  (forall n, status_at sc n <> 2) ->
  (forall n, abort_pressed sc n = false) ->
  let new :=
    round_frames (dot_size / 2)%Q dot_color (dot_pos screen_height) sc
      (n_status w) (n_points w) fuel in
  collect_loop sc screen_height dot_color dot_size fuel c true w
  = Spin (mkWorld (fuel + n_status w) (fuel + n_keys w) (fuel + n_points w)
            (log w ++ new)) /\
  count is_circle_draw new = fuel /\
  count is_flip new = fuel /\
  count is_stop_stream new = 0%nat /\
  count is_stop_calibration new = 0%nat.
Proof.
  intros Hs Ha new.
  destruct (round_frames_counts (dot_size / 2)%Q dot_color
              (dot_pos screen_height) fuel (n_status w) (n_points w))
    as (H1 & H2 & _ & H4 & H5).
  split; [|now repeat split]. subst new. clear H1 H2 H4 H5.
  revert w. induction fuel as [|fuel IH]; intros w.
  - cbn [round_frames]. rewrite app_nil_r. now destruct w.
  - rewrite collect_loop_frame by auto. rewrite IH.
    cbn [n_status n_keys n_points log round_frames].
    now rewrite <- app_assoc, <- !plus_n_Sm.
Qed.

Lemma repeat_loop_over (fuel : nat) (c m : bool) (w : world) :
  repeat_loop sc flipped fuel c m true w = Ret (c, m, true) w.
Proof. destruct fuel, m; reflexivity. Qed.

(** X8.  The repeat prompt ends only in a frame whose polls found a key:
    one of [q], [escape], [space], and then [calibration] is cleared, or
    else [5], and then [repeat_calibration] is set and [calibration] kept.
    When both polls of a frame find a key, the first wins.  No earlier
    frame found either. *)
Theorem repeat_prompt_exits_by_key (fuel : nat) (c : bool) :
  forall w x w',
    repeat_loop sc flipped fuel c true false w = Ret x w' ->
    exists k,
      n_keys w' = (n_keys w + 2 * S k)%nat /\
      (forall i, (i < k)%nat ->
                 prompt_end_pressed sc (n_keys w + 2 * i) = false /\
                 repeat_pressed sc (n_keys w + 2 * i + 1) = false) /\
      (prompt_end_pressed sc (n_keys w + 2 * k) = true /\
       x = (false, false, false) \/
       prompt_end_pressed sc (n_keys w + 2 * k) = false /\
       repeat_pressed sc (n_keys w + 2 * k + 1) = true /\
       x = (c, true, true)).
Proof.
  induction fuel as [|fuel IH]; intros w x w'; cbn [repeat_loop negb andb];
    [discriminate|].
  run_calls. fold (prompt_end_pressed sc (n_keys w)).
  fold (repeat_pressed sc (S (n_keys w))).
  destruct (prompt_end_pressed sc (n_keys w)) eqn:E1; run_calls.
  { intros [= <- <-]. exists 0%nat. cbn [n_keys].
    replace (n_keys w + 2 * 0)%nat with (n_keys w) by lia.
    split; [lia|]. split; [lia|]. now left. }
  destruct (repeat_pressed sc (S (n_keys w))) eqn:E2; run_calls.
  - rewrite repeat_loop_over. intros [= <- <-]. exists 0%nat. cbn [n_keys].
    replace (n_keys w + 2 * 0)%nat with (n_keys w) by lia.
    replace (n_keys w + 1)%nat with (S (n_keys w)) by lia.
    split; [lia|]. split; [lia|]. now right.
  - intros H. apply IH in H. cbn [n_keys] in H.
    destruct H as (k & Hn & Hi & Hk). exists (S k). split; [lia|]. split.
    + intros [|i] Hlt.
      * replace (n_keys w + 2 * 0)%nat with (n_keys w) by lia.
        replace (n_keys w + 1)%nat with (S (n_keys w)) by lia. now split.
      * replace (n_keys w + 2 * S i)%nat
          with (S (S (n_keys w)) + 2 * i)%nat by lia.
        apply Hi. lia.
    + replace (n_keys w + 2 * S k)%nat
        with (S (S (n_keys w)) + 2 * k)%nat by lia.
      exact Hk.
Qed.

End Waiting.

Lemma silent_device_never_2 (n : nat) : status_at silent_device n <> 2.
Proof. discriminate. Qed.

Lemma silent_device_no_abort (n : nat) : abort_pressed silent_device n = false.
Proof. reflexivity. Qed.

Lemma round_has_no_timeout_witness :
  is_ret (collect_loop silent_device 1080 [1%Q; 1%Q; 1%Q] 20%Q 50 true true
            world0) = false /\
  count is_circle_draw
    (log (world_of (collect_loop silent_device 1080 [1%Q; 1%Q; 1%Q] 20%Q 50
                      true true world0))) = 50%nat.
Proof.
  destruct (round_has_no_timeout silent_device 1080 [1%Q; 1%Q; 1%Q] 20%Q
              50 true world0 silent_device_never_2 silent_device_no_abort)
    as (E & C & _).
  rewrite E. split; [reflexivity|exact C].
Defined.

Lemma repeat_prompt_exits_by_key_witness :
  exists k,
    (2 = 0 + 2 * S k)%nat /\
    (forall i, (i < k)%nat ->
               prompt_end_pressed prompt_5 (0 + 2 * i) = false /\
               repeat_pressed prompt_5 (0 + 2 * i + 1) = false) /\
    (prompt_end_pressed prompt_5 (0 + 2 * k) = true /\
     (true, true, true) = (false, false, false) \/
     prompt_end_pressed prompt_5 (0 + 2 * k) = false /\
     repeat_pressed prompt_5 (0 + 2 * k + 1) = true /\
     (true, true, true) = (true, true, true)).
Proof.
  apply (repeat_prompt_exits_by_key prompt_5 true 1 true world0
           (true, true, true)
           (world_of (repeat_loop prompt_5 true 1 true true false world0))).
  vm_compute. reflexivity.
Defined.

(** ** The look of the stimuli *)

Lemma same_but_look_refl (w : world) : same_but_look w w.
Proof. now repeat split. Qed.

Lemma same_run_bind {A B} (m1 m2 : M A) (k1 k2 : A -> M B) (w1 w2 : world) :
  same_run (m1 w1) (m2 w2) ->
  (forall a v1 v2, same_but_look v1 v2 -> same_run (k1 a v1) (k2 a v2)) ->
  same_run (bind m1 k1 w1) (bind m2 k2 w2).
Proof.
  unfold bind. destruct (m1 w1), (m2 w2); cbn; try easy.
  intros [-> H] K. now apply K.
Qed.

Lemma emit_same (e1 e2 : event) (w1 w2 : world) :
  erase_look e1 = erase_look e2 -> same_but_look w1 w2 ->
  same_run (emit e1 w1) (emit e2 w2).
Proof.
  intros E (Hs & Hk & Hp & Hl). cbn. split; [reflexivity|].
  repeat split; cbn; auto. rewrite !map_app. cbn. congruence.
Qed.

Lemma ret_same {A} (a : A) (w1 w2 : world) :
  same_but_look w1 w2 -> same_run (ret a w1) (ret a w2).
Proof. now split. Qed.

Section Look.

Variable sc : script.

Lemma eye_get_status_same (w1 w2 : world) :
  same_but_look w1 w2 ->
  same_run (eye_get_status sc w1) (eye_get_status sc w2).
Proof.
  intros (Hs & Hk & Hp & Hl). cbn. rewrite Hs. split; [reflexivity|].
  repeat split; cbn; auto. rewrite !map_app. cbn. congruence.
Qed.

Lemma eye_get_calibration_point_same (w1 w2 : world) :
  same_but_look w1 w2 ->
  same_run (eye_get_calibration_point sc w1)
           (eye_get_calibration_point sc w2).
Proof.
  intros (Hs & Hk & Hp & Hl). cbn. rewrite Hp. split; [reflexivity|].
  repeat split; cbn; auto. rewrite !map_app. cbn. congruence.
Qed.

Lemma getKeys_same (keyList : list string) (w1 w2 : world) :
  same_but_look w1 w2 ->
  same_run (getKeys sc keyList w1) (getKeys sc keyList w2).
Proof.
  intros (Hs & Hk & Hp & Hl). cbn. rewrite Hk. split; [reflexivity|].
  repeat split; cbn; auto. rewrite !map_app. cbn. congruence.
Qed.

Variables (calibration_points screen_width screen_height distance_to_screen : Z).
Variable pixel_size : Q.
Variables (dot_color1 dot_color2 : list Q) (dot_size1 dot_size2 : Q).
Variables (flipped1 flipped2 : bool).

Ltac same_step :=
  first
    [ apply ret_same; assumption
    | apply same_run_bind;
      [ first [ apply getKeys_same; assumption
              | apply eye_get_status_same; assumption
              | apply eye_get_calibration_point_same; assumption
              | apply emit_same; [reflexivity|assumption] ]
      | intros ? ? ? ? ] ].

Lemma intro_loop_same (fuel : nat) :
  forall c m w1 w2,
    same_but_look w1 w2 ->
    same_run (intro_loop sc flipped1 fuel c m w1)
             (intro_loop sc flipped2 fuel c m w2).
Proof.
  induction fuel as [|fuel IH]; intros c m w1 w2 H; cbn [intro_loop];
    destruct m; cbn [negb]; try (now apply ret_same); [exact H|].
  do 2 same_step. destruct (truthy _); [now apply ret_same|].
  apply same_run_bind.
  - destruct (truthy _); repeat same_step.
  - intros ? ? ? ?. unfold text_draw, win_flip.
    do 2 same_step. now apply IH.
Qed.

Lemma repeat_loop_same (fuel : nat) :
  forall c m r w1 w2,
    same_but_look w1 w2 ->
    same_run (repeat_loop sc flipped1 fuel c m r w1)
             (repeat_loop sc flipped2 fuel c m r w2).
Proof.
  induction fuel as [|fuel IH]; intros c m r w1 w2 H; cbn [repeat_loop];
    destruct m, r; cbn [negb andb]; try (now apply ret_same); [exact H|].
  do 2 same_step. destruct (truthy _).
  { unfold eye_stop_calibration, eye_stop_stream. repeat same_step. }
  apply same_run_bind.
  - destruct (truthy _); unfold print; repeat same_step.
  - intros ? ? ? ?. unfold text_draw, win_flip.
    do 2 same_step. now apply IH.
Qed.

Lemma collect_loop_same (fuel : nat) :
  forall c r w1 w2,
    same_but_look w1 w2 ->
    same_run (collect_loop sc screen_height dot_color1 dot_size1 fuel c r w1)
             (collect_loop sc screen_height dot_color2 dot_size2 fuel c r w2).
Proof.
  induction fuel as [|fuel IH]; intros c r w1 w2 H; cbn [collect_loop];
    destruct r; cbn [negb]; try (now apply ret_same); [exact H|].
  same_step. destruct (truthy _).
  { unfold print, eye_stop_calibration, eye_stop_stream. repeat same_step. }
  same_step. apply same_run_bind.
  - destruct (_ =? 2)%Z;
      unfold print, eye_stop_calibration, eye_stop_stream; repeat same_step.
  - intros ? ? ? ?. unfold circle_draw, win_flip.
    do 3 same_step. now apply IH.
Qed.

Lemma collect_entry_same (r : bool) (w1 w2 : world) :
  same_but_look w1 w2 ->
  same_run (collect_entry sc calibration_points r w1)
           (collect_entry sc calibration_points r w2).
Proof.
  intros H. unfold collect_entry, print, clearEvents.
  do 3 same_step. apply same_run_bind.
  - destruct (_ || _); unfold eye_start_stream, eye_start_calibrate;
      repeat same_step.
  - intros ? ? ? ?. repeat same_step.
Qed.

Lemma per_point_check_same (fuel : nat) (c r : bool) (w1 w2 : world) :
  same_but_look w1 w2 ->
  same_run (per_point_check sc flipped1 fuel c r w1)
           (per_point_check sc flipped2 fuel c r w2).
Proof.
  intros H. unfold per_point_check, clearEvents.
  same_step. destruct (_ =? 2)%Z; [|now apply ret_same].
  same_step. apply same_run_bind; [now apply repeat_loop_same|].
  intros ? ? ? ?. now apply ret_same.
Qed.

Lemma main_loop_same (fuel : nat) :
  forall c r w1 w2,
    same_but_look w1 w2 ->
    same_run
      (main_loop sc calibration_points screen_height dot_color1 dot_size1
         flipped1 fuel c r w1)
      (main_loop sc calibration_points screen_height dot_color2 dot_size2
         flipped2 fuel c r w2).
Proof.
  induction fuel as [|fuel IH]; intros c r w1 w2 H; cbn [main_loop];
    destruct c; cbn [negb]; try (now apply ret_same); [exact H|].
  apply same_run_bind; [now apply collect_entry_same|].
  intros ? ? ? ?.
  apply same_run_bind; [now apply collect_loop_same|].
  intros ? ? ? ?.
  apply same_run_bind; [now apply per_point_check_same|].
  intros ? ? ? ?. now apply IH.
Qed.

Lemma calibrate_same (fuel : nat) (w1 w2 : world) :
  same_but_look w1 w2 ->
  same_run
    (calibrate sc calibration_points screen_width screen_height
       distance_to_screen pixel_size dot_color1 dot_size1 flipped1 fuel w1)
    (calibrate sc calibration_points screen_width screen_height
       distance_to_screen pixel_size dot_color2 dot_size2 flipped2 fuel w2).
Proof.
  intros H. unfold calibrate, eye_set_display_parameter,
    eye_set_display_offset, print, clearEvents.
  same_step. destruct (negb _); [|repeat same_step].
  do 5 same_step. destruct (negb _); [|now apply ret_same].
  apply same_run_bind; [now apply intro_loop_same|].
  intros ? ? ? ?.
  apply same_run_bind; [now apply main_loop_same|].
  intros ? ? ? ?. now apply ret_same.
Qed.

End Look.

Lemma device_calls_erase_look (l : list event) :
  device_calls (map erase_look l) = device_calls l.
Proof.
  unfold device_calls. induction l as [|e l IH]; cbn; [reflexivity|].
  rewrite IH. now destruct e.
Qed.

Lemma is_get_keys_erase_look (l : list event) :
  filter is_get_keys (map erase_look l) = filter is_get_keys l.
Proof.
  induction l as [|e l IH]; cbn; [reflexivity|]. rewrite IH. now destruct e.
Qed.

(** X9.  The colour and the size of the dots and the [flipped] flag change
    only the look of what is drawn.  Two calls that differ in nothing else
    end in the same way, after the same device calls with the same
    arguments and the same key polls with the same results, and their logs
    are equal once the text orientation and the dot radius and colour are
    erased; the dot positions are the same. *)
Theorem look_changes_nothing_else (sc : script)
  (calibration_points screen_width screen_height distance_to_screen : Z)
  (pixel_size : Q) (dot_color1 dot_color2 : list Q) (dot_size1 dot_size2 : Q)
  (flipped1 flipped2 : bool) (fuel : nat) (w : world) :
  let r1 := calibrate sc calibration_points screen_width screen_height
              distance_to_screen pixel_size dot_color1 dot_size1 flipped1
              fuel w in
  let r2 := calibrate sc calibration_points screen_width screen_height
              distance_to_screen pixel_size dot_color2 dot_size2 flipped2
              fuel w in
  is_ret r1 = is_ret r2 /\
  (forall c1 v1 c2 v2, r1 = Ret c1 v1 -> r2 = Ret c2 v2 -> c1 = c2) /\
  map erase_look (log (world_of r1)) = map erase_look (log (world_of r2)) /\
  device_calls (log (world_of r1)) = device_calls (log (world_of r2)) /\
  filter is_get_keys (log (world_of r1))
  = filter is_get_keys (log (world_of r2)).
Proof.
  intros r1 r2.
  pose proof (calibrate_same sc calibration_points screen_width screen_height
                distance_to_screen pixel_size dot_color1 dot_color2
                dot_size1 dot_size2 flipped1 flipped2 fuel w w
                (same_but_look_refl w)) as H.
  fold r1 r2 in H.
  assert (E : map erase_look (log (world_of r1))
              = map erase_look (log (world_of r2))).
  { destruct r1, r2; cbn in H |- *; try easy; apply H. }
  split; [destruct r1, r2; cbn in H |- *; easy|].
  split; [intros a1 u1 a2 u2 E1 E2; rewrite E1, E2 in H; apply H|].
  split; [exact E|]. split.
  - now rewrite <- (device_calls_erase_look (log (world_of r1))), E,
      device_calls_erase_look.
  - now rewrite <- (is_get_keys_erase_look (log (world_of r1))), E,
      is_get_keys_erase_look.
Qed.

(** ** After an abort, and between rounds *)

Section Passes.

Variable sc : script.
Variables (calibration_points screen_height : Z).
Variables (dot_color : list Q) (dot_size : Q) (flipped : bool).

Lemma repeat_loop_keeps_cleared (fuel : nat) :
  forall m r w x w',
    repeat_loop sc flipped fuel false m r w = Ret x w' ->
    fst (fst x) = false.
Proof.
  induction fuel as [|fuel IH]; intros m r w x w'; cbn [repeat_loop];
    destruct m, r; cbn [negb andb]; try (now intros [= <- _]).
  run_calls. destruct (truthy _); run_calls; [now intros [= <- _]|].
  destruct (truthy _); run_calls; apply IH.
Qed.

(** X10.  An abort key in a round does not keep the repeat prompt away:
    when the status poll that follows the aborted round reads 2, the prompt
    is entered all the same, with [calibration] already cleared.  Whatever
    key then ends the prompt, [calibration] stays cleared, so that no new
    round is started, not even by key [5]. *)
Theorem abort_in_round_then_prompt (fuel : nat) (c r : bool) (w : world) :
  abort_pressed sc (n_keys w) = true ->
  status_at sc (n_status w) = 2 ->
  bind (collect_loop sc screen_height dot_color dot_size (S fuel) c true)
       (fun x => per_point_check sc flipped fuel (fst x) r) w
  = bind (repeat_loop sc flipped fuel false true r)
         (fun y => ret (fst (fst y), snd y))
         (mkWorld (S (n_status w)) (S (n_keys w)) (n_points w)
            (log w ++
             [KbGetKeys ["q"; "escape"]
                (filter (in_keyList ["q"; "escape"]) (keys_at sc (n_keys w)));
              PyPrint [PyStr "Calibration aborted"];
              EyeStopCalibration; EyeStopStream;
              EyeGetStatus 2; KbClearEvents])) /\
  (forall fuel' w1 y w2,
      repeat_loop sc flipped fuel' false true r w1 = Ret y w2 ->
      fst (fst y) = false /\
      main_loop sc calibration_points screen_height dot_color dot_size
        flipped fuel' (fst (fst y)) (snd y) w2 = Ret tt w2).
Proof.
  intros Ha Hs. split.
  - unfold abort_pressed in Ha. unfold bind at 1.
    cbn [collect_loop negb]. run_calls. rewrite Ha. run_calls.
    unfold per_point_check. run_calls. rewrite Hs. cbn [Z.eqb].
    rewrite Pos.eqb_refl. run_calls. flat_log. reflexivity.
  - intros fuel' w1 y w2 H. apply repeat_loop_keeps_cleared in H.
    split; [exact H|]. rewrite H. now destruct fuel'.
Qed.

Lemma collect_loop_skipped (fuel : nat) (c : bool) (w : world) :
  collect_loop sc screen_height dot_color dot_size fuel c false w
  = Ret (c, false) w.
Proof. now destruct fuel. Qed.

(** One pass of the main loop in which nothing is started: the second
    status poll reads 2 and the check poll does not. *)
Lemma main_loop_idle_pass (fuel : nat) (w : world) :
  status_at sc (S (n_status w)) = 2 ->
  status_at sc (S (S (n_status w))) <> 2 ->
  main_loop sc calibration_points screen_height dot_color dot_size flipped
    (S fuel) true false w
  = main_loop sc calibration_points screen_height dot_color dot_size flipped
      fuel true false
      (mkWorld (3 + n_status w) (n_keys w) (n_points w)
         (log w ++
          [EyeGetStatus (status_at sc (n_status w));
           PyPrint [PyInt (status_at sc (n_status w))];
           EyeGetStatus 2; KbClearEvents;
           EyeGetStatus (status_at sc (S (S (n_status w))))])).
Proof.
  intros H1 H2. cbn [main_loop negb].
  unfold collect_entry, per_point_check. run_calls. rewrite H1. cbn [Z.eqb].
  rewrite Pos.eqb_refl. cbn [negb orb]. run_calls.
  rewrite collect_loop_skipped. run_calls.
  apply Z.eqb_neq in H2. rewrite H2. run_calls. flat_log. reflexivity.
Qed.

(** X11.  Between rounds the main loop polls no key.  On a device whose
    status reads 2 at the head of every pass and something else at the
    check that ends it, the loop goes round for ever: nothing is started
    or drawn, and no key is polled (the key buffer is only cleared), so
    that no key can end the call. *)
Theorem idle_passes_poll_no_key (fuel : nat) :
  forall w,
    (forall i, status_at sc (n_status w + 3 * i + 1) = 2) ->
    (forall i, status_at sc (n_status w + 3 * i + 2) <> 2) ->
    exists new,
      main_loop sc calibration_points screen_height dot_color dot_size
        flipped fuel true false w
      = Spin (mkWorld (3 * fuel + n_status w) (n_keys w) (n_points w)
                (log w ++ new)) /\
      count is_get_keys new = 0%nat /\
      presentation_calls new = [] /\
      device_controls new = [].
Proof.
  induction fuel as [|fuel IH]; intros w H1 H2.
  - exists []. rewrite app_nil_r. destruct w. repeat split.
  - rewrite main_loop_idle_pass.
    2:{ specialize (H1 0%nat).
        now replace (n_status w + 3 * 0 + 1)%nat with (S (n_status w))
          in H1 by lia. }
    2:{ specialize (H2 0%nat).
        now replace (n_status w + 3 * 0 + 2)%nat with (S (S (n_status w)))
          in H2 by lia. }
    match goal with |- context [main_loop _ _ _ _ _ _ _ _ _ ?w1] =>
      destruct (IH w1) as (new & -> & K & P & D) end.
    + intros i. cbn [n_status].
      replace (3 + n_status w + 3 * i + 1)%nat
        with (n_status w + 3 * S i + 1)%nat by lia. apply H1.
    + intros i. cbn [n_status].
      replace (3 + n_status w + 3 * i + 2)%nat
        with (n_status w + 3 * S i + 2)%nat by lia. apply H2.
    + cbn [n_status n_keys n_points log]. eexists. split.
      * rewrite <- app_assoc.
        replace (3 * fuel + (3 + n_status w))%nat
          with (3 * S fuel + n_status w)%nat by lia.
        reflexivity.
      * unfold presentation_calls, device_controls in *.
        rewrite count_app, !filter_app, K, P, D. repeat split.
Qed.

End Passes.

Lemma flickering_device_head (i : nat) :
  status_at flickering_device (0 + 3 * i + 1) = 2.
Proof.
  cbn [status_at flickering_device].
  replace (0 + 3 * i + 1)%nat with (1 + i * 3)%nat by lia.
  now rewrite Nat.Div0.mod_add.
Qed.

Lemma flickering_device_check (i : nat) :
  status_at flickering_device (0 + 3 * i + 2) <> 2.
Proof.
  cbn [status_at flickering_device].
  replace (0 + 3 * i + 2)%nat with (2 + i * 3)%nat by lia.
  now rewrite Nat.Div0.mod_add.
Qed.

Lemma idle_passes_poll_no_key_witness :
  is_ret (main_loop flickering_device 9 1080 [1%Q; 1%Q; 1%Q] 20%Q true 40
            true false world0) = false /\
  abort_pressed flickering_device 0 = true.
Proof.
  destruct (idle_passes_poll_no_key flickering_device 9 1080 [1%Q; 1%Q; 1%Q]
              20%Q true 40 world0 flickering_device_head
              flickering_device_check) as (new & -> & _).
  split; reflexivity.
Defined.

Lemma abort_in_round_then_prompt_witness :
  is_ret (bind (collect_loop prompt_q 1080 [1%Q; 1%Q; 1%Q] 20%Q 3 true true)
               (fun x => per_point_check prompt_q true 2 (fst x) false)
               world0) = false.
Proof.
  rewrite (proj1 (abort_in_round_then_prompt prompt_q 9 1080 [1%Q; 1%Q; 1%Q]
                    20%Q true 2 true false world0 eq_refl eq_refl)).
  reflexivity.
Defined.

Lemma display_configured_once_witness :
  exists rest,
    log (world_of (calibrate_default full_session 10 world0))
    = log world0 ++ EyeGetStatus 0
            :: EyeSetDisplayParameter 1080 1080 130 (333 # 1000)
            :: EyeSetDisplayOffset (x_displace 1920 1080) (-30)
            :: rest /\
    count is_config rest = 0%nat.
Proof.
  apply (display_configured_once full_session 9 1920 1080 130
           (333 # 1000) [1%Q; 1%Q; 1%Q] 20%Q true 10 world0).
  vm_compute. discriminate.
Defined.

Lemma returns_only_on_key_witness :
  exists pre keyList pressed post,
    log (world_of (calibrate_default full_session 10 world0))
    = log world0 ++ pre ++ KbGetKeys keyList pressed :: post /\
    In "q" keyList /\ pressed <> [].
Proof.
  apply (returns_only_on_key full_session 9 1920 1080 130
           (333 # 1000) [1%Q; 1%Q; 1%Q] 20%Q true 10 world0).
  - vm_compute. discriminate.
  - vm_compute. reflexivity.
Defined.

(** ** Messages to the tracker *)

Lemma byte_of_to_N (c : N) : (c < 128)%N -> Byte.to_N (byte_of c) = c.
Proof.
  intros H. unfold byte_of. destruct (Byte.of_N c) as [b|] eqn:E.
  - now apply Byte.to_of_N.
  - apply Byte.of_N_None_iff in E. lia.
Qed.

Lemma byte_of_nul (c : N) :
  (c < 128)%N -> Byte.eqb (byte_of c) Byte.x00 = (c =? 0)%N.
Proof.
  intros H. destruct (N.eqb_spec c 0) as [->|Hc]; [reflexivity|].
  destruct (Byte.eqb (byte_of c) Byte.x00) eqn:E; [|reflexivity].
  apply Byte.byte_dec_bl in E. apply (f_equal Byte.to_N) in E.
  rewrite byte_of_to_N in E by exact H. now cbn in E.
Qed.

Lemma encode_ascii_spec (s : pystr) :
  forall pos,
    Forall (fun c => (c < 128)%N) s /\
    encode_ascii pos s = inr (map byte_of s) \/
    exists i,
      (i < List.length s)%nat /\ (128 <= nth i s 0)%N /\
      Forall (fun c => (c < 128)%N) (firstn i s) /\
      encode_ascii pos s = inl (UnicodeEncodeError "ascii" (pos + i)).
Proof.
  induction s as [|c s IH]; intros pos; cbn [encode_ascii].
  - left. now split.
  - destruct (N.ltb_spec c 128) as [Hc|Hc].
    + destruct (IH (S pos)) as [[Hs ->]|(i & Hi & Hn & Hf & ->)].
      * left. split; [now constructor|reflexivity].
      * right. exists (S i). cbn [List.length nth firstn].
        split; [lia|]. split; [exact Hn|]. split; [now constructor|].
        now rewrite <- plus_n_Sm.
    + right. exists 0%nat. cbn [List.length nth firstn].
      split; [lia|]. split; [exact Hc|]. split; [constructor|].
      now rewrite Nat.add_0_r.
Qed.

(** X12.  [send_message] reaches the library exactly when every character
    of the message is ASCII (code point below 128).  Otherwise it raises
    [UnicodeEncodeError] for the first character that is not, and the
    library is not called: the message is lost, not truncated. *)
Theorem send_message_ascii_only (msg : pystr) (answer : Z)
  (calls : list lib_call) :
  Forall (fun c => (c < 128)%N) msg /\
  send_message msg answer calls
  = (inr tt,
     calls ++ [LibSetSoftwareEvent (map byte_of msg ++ [Byte.x00])]) \/
  exists i,
    (i < List.length msg)%nat /\ (128 <= nth i msg 0)%N /\
    Forall (fun c => (c < 128)%N) (firstn i msg) /\
    send_message msg answer calls
    = (inl (UnicodeEncodeError "ascii" i), calls).
Proof.
  unfold send_message, eye_set_software_event.
  destruct (encode_ascii_spec msg 0) as [[H ->]|(i & Hi & Hn & Hf & ->)].
  - left. now split.
  - right. exists i. repeat split; auto.
Qed.

Lemma c_str_encoded (s : pystr) :
  Forall (fun c => (c < 128)%N) s ->
  map Byte.to_N (c_str (map byte_of s ++ [Byte.x00])) = before_nul s.
Proof.
  induction 1 as [|c s Hc _ IH]; cbn [map app c_str before_nul];
    [reflexivity|].
  rewrite byte_of_nul by exact Hc.
  destruct (c =? 0)%N; [reflexivity|].
  cbn [map]. now rewrite IH, byte_of_to_N.
Qed.

Lemma before_nul_all (s : pystr) :
  Forall (fun c => c <> 0%N) s -> before_nul s = s.
Proof.
  induction 1 as [|c s Hc _ IH]; cbn; [reflexivity|].
  apply N.eqb_neq in Hc. now rewrite Hc, IH.
Qed.

(** X13.  For an ASCII message the library is handed the characters as
    bytes followed by one NUL, and the C string it reads there is the
    message up to its first NUL character: the whole message when it has
    none, a truncated one otherwise. *)
Theorem library_reads_message_to_first_nul (msg : pystr) (answer : Z)
  (calls : list lib_call) :
  Forall (fun c => (c < 128)%N) msg ->
  exists event_bytes,
    send_message msg answer calls
    = (inr tt, calls ++ [LibSetSoftwareEvent event_bytes]) /\
    List.length event_bytes = S (List.length msg) /\
    map Byte.to_N (c_str event_bytes) = before_nul msg /\
    (Forall (fun c => c <> 0%N) msg ->
     map Byte.to_N (c_str event_bytes) = msg).
Proof.
  intros H. exists (map byte_of msg ++ [Byte.x00]).
  unfold send_message, eye_set_software_event.
  destruct (encode_ascii_spec msg 0) as [[_ ->]|(i & Hi & Hn & Hf & _)].
  - split; [reflexivity|]. split.
    + rewrite length_app, length_map. cbn. lia.
    + split; [now apply c_str_encoded|].
      intros Hz. rewrite c_str_encoded by exact H. now apply before_nul_all.
  - exfalso. rewrite Forall_forall in H.
    specialize (H (nth i msg 0%N) (nth_In _ _ Hi)). lia.
Qed.

Lemma send_message_ascii_only_witness :
  send_message msg_ok 0 []
  = (inr tt, [LibSetSoftwareEvent [Byte.x6f; Byte.x6b; Byte.x00]]) /\
  send_message msg_cafe 0 [] = (inl (UnicodeEncodeError "ascii" 3), []).
Proof.
  split.
  - destruct (send_message_ascii_only msg_ok 0 [])
      as [[_ E]|(i & _ & _ & _ & E)]; [exact E|].
    vm_compute in E. discriminate E.
  - destruct (send_message_ascii_only msg_cafe 0 [])
      as [[_ E]|(i & _ & _ & _ & E)]; [vm_compute in E; discriminate E|].
    vm_compute. reflexivity.
Defined.

Lemma library_reads_message_to_first_nul_witness :
  exists event_bytes,
    send_message msg_ok 0 []
    = (inr tt, [] ++ [LibSetSoftwareEvent event_bytes]) /\
    List.length event_bytes = 3%nat /\
    map Byte.to_N (c_str event_bytes) = before_nul msg_ok /\
    (Forall (fun c => c <> 0%N) msg_ok ->
     map Byte.to_N (c_str event_bytes) = msg_ok).
Proof.
  apply (library_reads_message_to_first_nul msg_ok 0 []).
  repeat constructor.
Defined.

(** ** Reading events *)

Section EventsRead.

Variable decode_utf8 : list Byte.byte -> option pystr.
Variable answers : nat -> option EyeEvent.

Lemma get_events_loop_all (n : nat) :
  forall k events,
    (forall evt, In evt (answered answers n k) ->
                 decode_utf8 (c_str (firstn 256 (event_text evt))) <> None) ->
    exists ds,
      get_events_loop decode_utf8 answers n k events
      = (inr (events ++ ds), (k + n)%nat) /\
      Forall2 (fun evt d => dict_of decode_utf8 evt = inr d)
        (answered answers n k) ds.
Proof.
  induction n as [|n IH]; intros k events H; cbn [get_events_loop answered].
  - exists []. rewrite app_nil_r, Nat.add_0_r. split; [reflexivity|constructor].
  - cbn [answered] in H. destruct (answers k) as [evt|].
    + assert (Hd := H evt (or_introl eq_refl)).
      destruct (dict_of decode_utf8 evt) as [e|d] eqn:E.
      { unfold dict_of in E. destruct (decode_utf8 _); [discriminate E|].
        now elim Hd. }
      destruct (IH (S k) (events ++ [d])) as (ds & -> & F).
      { intros evt' Hin. apply H. now right. }
      exists (d :: ds). rewrite <- app_assoc, <- plus_n_Sm.
      split; [reflexivity|now constructor].
    + destruct (IH (S k) events H) as (ds & -> & F).
      exists ds. rewrite <- plus_n_Sm. now split.
Qed.

Lemma answered_length (n k : nat) :
  (List.length (answered answers n k) <= n)%nat.
Proof.
  revert k. induction n as [|n IH]; intros k; cbn; [lia|].
  specialize (IH (S k)). destruct (answers k); cbn; lia.
Qed.

(** X14.  [eye_get_events(count)] calls the library [count] times, not
    fewer when an answer is NULL: NULL answers are skipped and the events
    of the other answers are returned in the order read, so at most
    [count] events come back, and none for [count <= 0].  This holds when
    every event text read decodes. *)
Theorem eye_get_events_reads_count_times (count : Z) :
  (forall evt, In evt (answered answers (Z.to_nat count) 0) ->
               decode_utf8 (c_str (firstn 256 (event_text evt))) <> None) ->
  exists ds,
    eye_get_events decode_utf8 answers count = (inr ds, Z.to_nat count) /\
    Forall2 (fun evt d => dict_of decode_utf8 evt = inr d)
      (answered answers (Z.to_nat count) 0) ds /\
    (List.length ds <= Z.to_nat count)%nat /\
    (count <= 0 -> ds = []).
Proof.
  intros H. unfold eye_get_events.
  destruct (get_events_loop_all (Z.to_nat count) 0 [] H) as (ds & E & F).
  exists ds. cbn [app Nat.add] in E. split; [exact E|]. split; [exact F|].
  assert (L : (List.length ds <= Z.to_nat count)%nat).
  { rewrite <- (Forall2_length F). apply answered_length. }
  split; [exact L|]. intros Hc.
  replace (Z.to_nat count) with 0%nat in L by lia. now destruct ds.
Qed.

Lemma get_events_loop_fails (n : nat) :
  forall k events j evt,
    (j < n)%nat ->
    answers (k + j) = Some evt ->
    decode_utf8 (c_str (firstn 256 (event_text evt))) = None ->
    (forall evt', In evt' (answered answers j k) ->
                  decode_utf8 (c_str (firstn 256 (event_text evt'))) <> None) ->
    get_events_loop decode_utf8 answers n k events
    = (inl (UnicodeDecodeError "utf-8"), S (k + j)).
Proof.
  induction n as [|n IH]; intros k events j evt Hj Ha Hd Hok; [lia|].
  cbn [get_events_loop]. destruct j as [|j].
  - rewrite Nat.add_0_r in Ha |- *. rewrite Ha. unfold dict_of. now rewrite Hd.
  - cbn [answered] in Hok. rewrite <- plus_n_Sm in Ha |- *.
    destruct (answers k) as [evt0|].
    + assert (H0 := Hok evt0 (or_introl eq_refl)).
      unfold dict_of.
      destruct (decode_utf8 (c_str (firstn 256 (event_text evt0))));
        [|now elim H0].
      apply (IH (S k) _ j evt); auto; [lia|].
      intros evt' Hin. apply Hok. now right.
    + apply (IH (S k) _ j evt); auto. lia.
Qed.

(** X15.  One event text that does not decode loses the whole batch: if
    the answer to call [j] (counting from 0, [j < count]) is the first
    event whose text [decode('utf-8')] rejects, [eye_get_events] raises
    [UnicodeDecodeError] after [j + 1] library calls and returns none of
    the events read before. *)
Theorem eye_get_events_decode_failure (count : Z) (j : nat) (evt : EyeEvent) :
  (j < Z.to_nat count)%nat ->
  answers j = Some evt ->
  decode_utf8 (c_str (firstn 256 (event_text evt))) = None ->
  (forall evt', In evt' (answered answers j 0) ->
                decode_utf8 (c_str (firstn 256 (event_text evt'))) <> None) ->
  eye_get_events decode_utf8 answers count
  = (inl (UnicodeDecodeError "utf-8"), S j).
Proof.
  intros Hj Ha Hd Hok. unfold eye_get_events.
  now apply (get_events_loop_fails (Z.to_nat count) 0 [] j evt).
Qed.

End EventsRead.

Lemma eye_get_events_reads_count_times_witness :
  exists ds,
    eye_get_events decode_ascii_only sample_answers 4 = (inr ds, 4%nat) /\
    map d_event_text ds = [[97%N]; [99%N]].
Proof.
  destruct (eye_get_events_reads_count_times decode_ascii_only sample_answers 4)
    as (ds & E & _).
  - intros evt [<-|[<-|[]]]; discriminate.
  - exists ds. split; [exact E|].
    vm_compute in E. now injection E as <-.
Defined.

Lemma eye_get_events_decode_failure_witness :
  eye_get_events decode_ascii_only
    (fun n => match n with
              | 1%nat => Some (sample_event [Byte.xe9])
              | _ => sample_answers n
              end) 4
  = (inl (UnicodeDecodeError "utf-8"), 2%nat).
Proof.
  apply (eye_get_events_decode_failure decode_ascii_only _ 4 1
           (sample_event [Byte.xe9])).
  - cbn. lia.
  - reflexivity.
  - reflexivity.
  - intros evt [<-|[]]. discriminate.
Defined.

(** ** The keyboard of the tracker *)

Lemma getDevice_added (dm : DeviceManager) (name name' : string) (d : device) :
  getDevice (dm ++ [(name, d)]) name'
  = match getDevice dm name' with
    | Some d' => Some d'
    | None => if (name =? name')%string then Some d else None
    end.
Proof.
  induction dm as [|[n0 d0] dm IH]; cbn; [reflexivity|].
  now destruct (n0 =? name')%string.
Qed.

(** X16.  Creating a tracker registers the device [MRC_keyboard] only
    when the device manager has none: afterwards the name is bound to the
    keyboard the new object holds, a second object gets that same keyboard
    and registers nothing, and the devices under other names are
    untouched. *)
Theorem trackers_share_one_keyboard (dm : DeviceManager) :
  let kb := fst (init_keyboard dm) in
  let dm1 := snd (init_keyboard dm) in
  kb <> None /\
  getDevice dm1 "MRC_keyboard" = kb /\
  init_keyboard dm1 = (kb, dm1) /\
  (getDevice dm "MRC_keyboard" <> None -> dm1 = dm) /\
  (forall name, name <> "MRC_keyboard" ->
                getDevice dm1 name = getDevice dm name).
Proof.
  unfold init_keyboard.
  destruct (getDevice dm "MRC_keyboard") as [d|] eqn:E; cbn.
  - rewrite E. repeat split; auto; discriminate.
  - rewrite getDevice_added, E. cbn.
    repeat split; try discriminate.
    + now elim 1.
    + intros name Hn. rewrite getDevice_added.
      destruct (getDevice dm name); [reflexivity|].
      destruct (String.eqb_spec "MRC_keyboard" name); [congruence|reflexivity].
Qed.

(** ** Through the routine, call by call *)

Lemma bind_ret_eq {A B} (m : M A) (k : A -> M B) (w w' : world) (a : A) :
  m w = Ret a w' -> bind m k w = k a w'.
Proof. unfold bind. now intros ->. Qed.

Lemma bind_congr {A B} (m m' : M A) (k : A -> M B) (w w' : world) :
  m w = m' w' -> bind m k w = bind m' k w'.
Proof. unfold bind. now intros ->. Qed.


(** A point read, its dot and the flip, with no point read before. *)
Lemma first_read_here (p : point) (c f : event) (rest : list event) :
  exists pre rest',
    EyeGetCalibrationPoint p :: c :: f :: rest
    = pre ++ EyeGetCalibrationPoint p :: c :: f :: rest' /\
    count is_point_read pre = 0%nat.
Proof. now exists [], rest. Qed.




Section Through.

Variable sc : script.
Variables (calibration_points screen_width screen_height distance_to_screen : Z).
Variables (pixel_size : Q) (dot_color : list Q) (dot_size : Q) (flipped : bool).

Local Abbreviation calibrate' :=
  (calibrate sc calibration_points screen_width screen_height
     distance_to_screen pixel_size dot_color dot_size flipped).
Local Abbreviation main_loop' :=
  (main_loop sc calibration_points screen_height dot_color dot_size flipped).
Local Abbreviation collect_loop' :=
  (collect_loop sc screen_height dot_color dot_size).

Local Abbreviation rest_of_pass' :=
  (rest_of_pass sc calibration_points screen_height dot_color dot_size
     flipped).

Lemma main_loop_pass (fuel : nat) (r : bool) (w : world) :
  main_loop' (S fuel) true r w
  = bind (collect_entry sc calibration_points r)
         (fun e => rest_of_pass' fuel fuel true (fst e) (snd e)) w.
Proof. reflexivity. Qed.


(** Lines 249-270 on a connected device whose second poll is not 2. *)
Lemma calibrate_connected (fuel : nat) (w : world) :
  status_at sc (n_status w) <> -1 ->
  status_at sc (S (n_status w)) <> 2 ->
  calibrate' fuel w
  = bind (intro_loop sc flipped fuel true true)
         (fun i => bind (main_loop' fuel (fst i) false)
                        (fun _ => ret Returned))
      (mkWorld (S (S (n_status w))) (n_keys w) (n_points w)
         (log w ++
          [EyeGetStatus (status_at sc (n_status w));
           EyeSetDisplayParameter screen_height screen_height
             distance_to_screen pixel_size;
           EyeSetDisplayOffset (x_displace screen_width screen_height) (-30);
           PyPrint [PyInt (x_displace screen_width screen_height);
                    PyInt (-30)];
           EyeGetStatus (status_at sc (S (n_status w)));
           KbClearEvents])).
Proof.
  intros H0 H1. unfold calibrate. run_calls.
  apply Z.eqb_neq in H0, H1. rewrite H0. cbn [negb]. run_calls.
  rewrite H1. cbn [negb]. run_calls. flat_log. reflexivity.
Qed.

(** A frame of the intro prompt in which space is found. *)
Lemma intro_loop_space_frame (fuel : nat) (c : bool) (w : world) :
  abort_pressed sc (n_keys w) = false ->
  space_pressed sc (S (n_keys w)) = true ->
  intro_loop sc flipped (S fuel) c true w
  = Ret (c, false)
      (mkWorld (n_status w) (S (S (n_keys w))) (n_points w)
         (log w ++
          [KbGetKeys ["q"; "escape"] [];
           KbGetKeys ["space"]
             (filter (in_keyList ["space"]) (keys_at sc (S (n_keys w))));
           PyPrint [PyStr "starting calibration"];
           TextDraw calibration_Text flipped; WinFlip])).
Proof.
  unfold abort_pressed, space_pressed. intros Ha Hs.
  cbn [intro_loop negb]. run_calls.
  rewrite Ha, (not_truthy_nil _ Ha). run_calls. rewrite Hs. run_calls.
  rewrite intro_loop_over. flat_log. reflexivity.
Qed.

(** The head of a round: with the flag, with a status other than 2, and
    with neither. *)
Lemma collect_entry_flag (w : world) :
  collect_entry sc calibration_points true w
  = Ret (true, false)
      (mkWorld (S (S (n_status w))) (n_keys w) (n_points w)
         (log w ++
          [EyeGetStatus (status_at sc (n_status w));
           PyPrint [PyInt (status_at sc (n_status w))];
           EyeGetStatus (status_at sc (S (n_status w)));
           EyeStartStream 0; EyeStartCalibrate calibration_points;
           KbClearEvents])).
Proof.
  unfold collect_entry. run_calls. rewrite orb_true_r. run_calls.
  flat_log. reflexivity.
Qed.


Lemma collect_entry_idle (w : world) :
  status_at sc (S (n_status w)) = 2 ->
  collect_entry sc calibration_points false w
  = Ret (false, false)
      (mkWorld (S (S (n_status w))) (n_keys w) (n_points w)
         (log w ++
          [EyeGetStatus (status_at sc (n_status w));
           PyPrint [PyInt (status_at sc (n_status w))];
           EyeGetStatus 2; KbClearEvents])).
Proof.
  intros H. unfold collect_entry. run_calls. rewrite H. cbn [Z.eqb].
  rewrite Pos.eqb_refl. cbn [negb orb]. run_calls. flat_log. reflexivity.
Qed.

(** A frame of the repeat prompt in which only key 5 is found. *)
Lemma repeat_loop_key_5 (fuel : nat) (c : bool) (w : world) :
  prompt_end_pressed sc (n_keys w) = false ->
  repeat_pressed sc (S (n_keys w)) = true ->
  repeat_loop sc flipped (S fuel) c true false w
  = Ret (c, true, true)
      (mkWorld (n_status w) (S (S (n_keys w))) (n_points w)
         (log w ++
          [KbGetKeys ["q"; "escape"; "space"]
             (filter (in_keyList ["q"; "escape"; "space"])
                (keys_at sc (n_keys w)));
           KbGetKeys ["5"]
             (filter (in_keyList ["5"]) (keys_at sc (S (n_keys w))));
           PyPrint [PyStr "repeating calibration"];
           TextDraw repeat_Text flipped; WinFlip])).
Proof.
  unfold prompt_end_pressed, repeat_pressed. intros H1 H2.
  cbn [repeat_loop negb andb]. run_calls. rewrite H1. run_calls.
  rewrite H2. run_calls.
  destruct fuel; cbn [repeat_loop negb andb]; run_calls;
    flat_log; reflexivity.
Qed.

(** The check after a round, when the status reads 2. *)
Lemma per_point_check_prompt (fuel : nat) (c r : bool) (w : world) :
  status_at sc (n_status w) = 2 ->
  per_point_check sc flipped fuel c r w
  = bind (repeat_loop sc flipped fuel c true r)
         (fun x => ret (fst (fst x), snd x))
      (mkWorld (S (n_status w)) (n_keys w) (n_points w)
         (log w ++ [EyeGetStatus 2; KbClearEvents])).
Proof.
  intros H. unfold per_point_check. run_calls. rewrite H. cbn [Z.eqb].
  rewrite Pos.eqb_refl. run_calls. flat_log. reflexivity.
Qed.



(** The check after a round, when the status reads 2 and key 5 is the
    only key found at the prompt. *)
Lemma per_point_check_key_5 (fuel : nat) (c : bool) (w : world) :
  status_at sc (n_status w) = 2 ->
  prompt_end_pressed sc (n_keys w) = false ->
  repeat_pressed sc (S (n_keys w)) = true ->
  per_point_check sc flipped (S fuel) c false w
  = Ret (c, true)
      (mkWorld (S (n_status w)) (S (S (n_keys w))) (n_points w)
         (log w ++
          [EyeGetStatus 2; KbClearEvents;
           KbGetKeys ["q"; "escape"; "space"]
             (filter (in_keyList ["q"; "escape"; "space"])
                (keys_at sc (n_keys w)));
           KbGetKeys ["5"]
             (filter (in_keyList ["5"]) (keys_at sc (S (n_keys w))));
           PyPrint [PyStr "repeating calibration"];
           TextDraw repeat_Text flipped; WinFlip])).
Proof.
  intros H Hp H5. rewrite per_point_check_prompt by exact H.
  match goal with |- context [bind (repeat_loop _ _ _ _ _ _) _ ?w1] =>
    rewrite (bind_ret_eq _ _ _ _ _ (repeat_loop_key_5 fuel c w1 Hp H5)) end.
  cbn [fst snd n_status n_keys n_points log]. unfold ret.
  flat_log. reflexivity.
Qed.

(** C5.  Key [5] at the repeat prompt (with no key of the cancel poll
    down) sets [repeat_calibration] and leaves the prompt with
    [calibration] unchanged.  The head of the next round, entered with the
    flag set, calls [eye_start_stream(0)] and then
    [eye_start_calibrate(calibration_points)] whatever the two status polls
    read (2 included), and clears the flag.  Entered without the flag while
    the status reads 2, it makes neither call.  In [calibrate] as a whole:
    on a connected device that reads 2 at the head of the first pass and at
    the check, with space at the intro prompt and key 5 at the repeat
    prompt, nothing is started in the first pass, and the second pass
    starts the stream and the calibration whatever its status polls read,
    before the round goes on with the flag cleared. *)
Theorem repeat_flag_forces_restart (fuel : nat) (c : bool) (w : world) :
  (prompt_end_pressed sc (n_keys w) = false ->
   repeat_pressed sc (S (n_keys w)) = true ->
   repeat_loop sc flipped (S fuel) c true false w
   = Ret (c, true, true)
       (mkWorld (n_status w) (S (S (n_keys w))) (n_points w)
          (log w ++
           [KbGetKeys ["q"; "escape"; "space"]
              (filter (in_keyList ["q"; "escape"; "space"])
                 (keys_at sc (n_keys w)));
            KbGetKeys ["5"]
              (filter (in_keyList ["5"]) (keys_at sc (S (n_keys w))));
            PyPrint [PyStr "repeating calibration"];
            TextDraw repeat_Text flipped; WinFlip]))) /\
  collect_entry sc calibration_points true w
  = Ret (true, false)
      (mkWorld (S (S (n_status w))) (n_keys w) (n_points w)
         (log w ++
          [EyeGetStatus (status_at sc (n_status w));
           PyPrint [PyInt (status_at sc (n_status w))];
           EyeGetStatus (status_at sc (S (n_status w)));
           EyeStartStream 0; EyeStartCalibrate calibration_points;
           KbClearEvents])) /\
  (status_at sc (S (n_status w)) = 2 ->
   collect_entry sc calibration_points false w
   = Ret (false, false)
       (mkWorld (S (S (n_status w))) (n_keys w) (n_points w)
          (log w ++
           [EyeGetStatus (status_at sc (n_status w));
            PyPrint [PyInt (status_at sc (n_status w))];
            EyeGetStatus 2; KbClearEvents]))) /\
  (status_at sc (n_status w) <> -1 ->
   status_at sc (S (n_status w)) <> 2 ->
   abort_pressed sc (n_keys w) = false ->
   space_pressed sc (S (n_keys w)) = true ->
   status_at sc (3 + n_status w) = 2 ->
   status_at sc (4 + n_status w) = 2 ->
   prompt_end_pressed sc (2 + n_keys w) = false ->
   repeat_pressed sc (3 + n_keys w) = true ->
   calibrate' (3 + fuel) w
   = bind (rest_of_pass' (S fuel) (S fuel) true true false)
          (fun _ => ret Returned)
       (mkWorld (7 + n_status w) (4 + n_keys w) (n_points w)
          (log w ++
           [EyeGetStatus (status_at sc (n_status w));
            EyeSetDisplayParameter screen_height screen_height
              distance_to_screen pixel_size;
            EyeSetDisplayOffset (x_displace screen_width screen_height)
              (-30);
            PyPrint [PyInt (x_displace screen_width screen_height);
                     PyInt (-30)];
            EyeGetStatus (status_at sc (S (n_status w)));
            KbClearEvents;
            KbGetKeys ["q"; "escape"] [];
            KbGetKeys ["space"]
              (filter (in_keyList ["space"]) (keys_at sc (S (n_keys w))));
            PyPrint [PyStr "starting calibration"];
            TextDraw calibration_Text flipped; WinFlip;
            EyeGetStatus (status_at sc (2 + n_status w));
            PyPrint [PyInt (status_at sc (2 + n_status w))];
            EyeGetStatus 2; KbClearEvents;
            EyeGetStatus 2; KbClearEvents;
            KbGetKeys ["q"; "escape"; "space"]
              (filter (in_keyList ["q"; "escape"; "space"])
                 (keys_at sc (2 + n_keys w)));
            KbGetKeys ["5"]
              (filter (in_keyList ["5"]) (keys_at sc (3 + n_keys w)));
            PyPrint [PyStr "repeating calibration"];
            TextDraw repeat_Text flipped; WinFlip;
            EyeGetStatus (status_at sc (5 + n_status w));
            PyPrint [PyInt (status_at sc (5 + n_status w))];
            EyeGetStatus (status_at sc (6 + n_status w));
            EyeStartStream 0; EyeStartCalibrate calibration_points;
            KbClearEvents]))).
Proof.
  split; [apply repeat_loop_key_5|].
  split; [apply collect_entry_flag|].
  split; [apply collect_entry_idle|].
  intros H0 H1 Ha Hs H3 H4 Hp H5.
  change (3 + fuel)%nat with (S (S (S fuel))).
  rewrite calibrate_connected by assumption.
  match goal with |- context [bind (intro_loop _ _ _ _ _) _ ?w0] =>
    rewrite (bind_ret_eq _ _ _ _ _
               (intro_loop_space_frame (S (S fuel)) true w0 Ha Hs)) end.
  cbn [fst n_status n_keys n_points log]. apply bind_congr.
  rewrite main_loop_pass.
  match goal with |- context [bind (collect_entry _ _ _) _ ?w2] =>
    rewrite (bind_ret_eq _ _ _ _ _ (collect_entry_idle w2 H3)) end.
  cbn [fst snd n_status n_keys n_points log].
  unfold rest_of_pass at 1.
  match goal with |- context [bind (collect_loop' _ true false) _ ?w3] =>
    rewrite (bind_ret_eq _ _ _ _ _ (collect_loop_skipped sc screen_height
                                      dot_color dot_size _ true w3)) end.
  cbn [fst].
  match goal with |- context [bind (per_point_check _ _ _ _ _) _ ?w3] =>
    rewrite (bind_ret_eq _ _ _ _ _
               (per_point_check_key_5 (S fuel) true w3 H4 Hp H5)) end.
  cbn [fst snd n_status n_keys n_points log].
  rewrite main_loop_pass.
  match goal with |- context [bind (collect_entry _ _ _) _ ?w5] =>
    rewrite (bind_ret_eq _ _ _ _ _ (collect_entry_flag w5)) end.
  cbn [fst snd n_status n_keys n_points log]. flat_log. reflexivity.
Qed.

End Through.


Lemma repeat_flag_forces_restart_witness :
  exists w6,
    calibrate_default recalibrate 4 world0
    = bind (rest_of_pass recalibrate 9 1080 [1%Q; 1%Q; 1%Q] 20%Q true
              2 2 true true false)
           (fun _ => ret Returned) w6 /\
    status_at recalibrate 6 = 2 /\
    start_calls (log w6) = [EyeStartStream 0; EyeStartCalibrate 9] /\
    repeat_loop prompt_5 true 1 true true false world0
    = Ret (true, true, true)
        (mkWorld 0 2 0
           [KbGetKeys ["q"; "escape"; "space"] []; KbGetKeys ["5"] ["5"];
            PyPrint [PyStr "repeating calibration"]; TextDraw repeat_Text true;
            WinFlip]).
Proof.
  destruct (repeat_flag_forces_restart recalibrate 9 1920 1080 130
              (333 # 1000) [1%Q; 1%Q; 1%Q] 20%Q true 1 true world0)
    as (_ & _ & _ & H4).
  destruct (repeat_flag_forces_restart prompt_5 9 1920 1080 130
              (333 # 1000) [1%Q; 1%Q; 1%Q] 20%Q true 0 true world0)
    as (H1 & _).
  eexists. split.
  - apply H4; try reflexivity; discriminate.
  - split; [reflexivity|]. split; [reflexivity|].
    exact (H1 eq_refl eq_refl).
Defined.
